(** * PharmacyGenius Search API

    A shallow embedding of [main.py]: the prompt builder
    [create_drug_search_prompt], the request model [DrugSearchRequest], the
    handlers [health_check], [search_drug] and [quick_drug_search], and the
    way the web framework dispatches a request to them.

    Conventions of the embedding.
    - A Python [str] is a [string]; one [ascii] stands for one character, so
      the model covers text whose characters fit in one byte.  The templates
      of the prompt builder are plain ASCII.
    - A Python [dict] with string keys is a [gmap string _].
    - A handler is a computation over a read-only [World] (environment
      variables, the clock, the provider) that appends to a log of the calls
      it makes and either returns a value or raises an exception. *)

From Stdlib Require Import ZArith Lia.
From stdpp Require Import gmap strings list fin_maps pretty.

Local Open Scope string_scope.

(** ** Python values and strings *)

Module Py.

(** The double-quote character. *)
Definition dquote : string := String (Ascii.ascii_of_nat 34) EmptyString.

(** [s[:n]]: the first [n] characters, or all of [s] when it is shorter. *)
Fixpoint slice_to (n : nat) (s : string) : string :=
  match n, s with
  | S n', String c s' => String c (slice_to n' s')
  | _, _ => EmptyString
  end.

(** [bool(s)] of a string: non-empty. *)
Definition truthy (s : string) : bool :=
  match s with
  | EmptyString => false
  | String _ _ => true
  end.

(** [c.isspace()] for a character: the white space of [str.strip()]. *)
Definition isspace (c : Ascii.ascii) : bool :=
  let n := Ascii.nat_of_ascii c in
  ((9 <=? n) && (n <=? 13) || (28 <=? n) && (n <=? 32)
   || (n =? 133) || (n =? 160))%nat.

Fixpoint lstrip (s : string) : string :=
  match s with
  | EmptyString => EmptyString
  | String c s' => if isspace c then lstrip s' else s
  end.

Fixpoint rstrip (s : string) : string :=
  match s with
  | EmptyString => EmptyString
  | String c s' =>
      match rstrip s' with
      | EmptyString => if isspace c then EmptyString else String c EmptyString
      | kept => String c kept
      end
  end.

(** [s.strip()]: the trimming that the specification speaks of.  The
    program itself never calls it. *)
Definition strip (s : string) : string := rstrip (lstrip s).

(** [needle in hay]. *)
Definition contains (needle hay : string) : Prop :=
  exists pre post, hay = pre +:+ needle +:+ post.

Definition startswith (p s : string) : Prop := exists post, s = p +:+ post.
Definition endswith (p s : string) : Prop := exists pre, s = pre +:+ p.

(** The same tests as functions that compute. *)
Fixpoint starts_with (p s : string) : bool :=
  match p, s with
  | EmptyString, _ => true
  | String _ _, EmptyString => false
  | String a p', String b s' => if Ascii.eqb a b then starts_with p' s' else false
  end.

Fixpoint occurs (needle hay : string) : bool :=
  starts_with needle hay
  || match hay with
     | EmptyString => false
     | String _ hay' => occurs needle hay'
     end.

(** [c in s] for a character. *)
Fixpoint has_char (c : Ascii.ascii) (s : string) : bool :=
  match s with
  | EmptyString => false
  | String a s' => Ascii.eqb c a || has_char c s'
  end.

(** JSON-like values: what goes into a [dict] literal or a keyword
    argument. *)
#[warnings="-register-all"]
Inductive pyval : Type :=
| PNone
| PBool (b : bool)
| PInt (z : Z)
| PStr (s : string)
| PList (l : list pyval)
| PDict (m : gmap string pyval).

(** [None] or a string. *)
Definition of_optional_str (o : option string) : pyval :=
  match o with
  | Some s => PStr s
  | None => PNone
  end.

End Py.

Import Py.

(** ** Prompt builder *)

Module PromptBuilder.

(** The f-string that opens the prompt, up to the quoted drug name. *)
Definition preamble_head : string := "
    Search for comprehensive information about the drug ".

(** The rest of the f-string: the basic, medical and regulatory
    sections. *)
Definition preamble_tail : string := " and provide detailed, accurate information from authoritative medical sources. 

    Please provide the following information in a structured format:

    1. **Basic Information:**
       - Official drug name
       - Generic name (if applicable)
       - Common brand names
       - Drug classification/category

    2. **Medical Information:**
       - Primary indications (what conditions it treats)
       - Mechanism of action (how it works)
       - Therapeutic category

    3. **Regulatory Information:**
       - FDA approval status
       - Available formulations (tablets, injection, etc.)
       - Prescription vs OTC status
    ".

Definition preamble (drug_name : string) : string :=
  preamble_head +:+ dquote +:+ drug_name +:+ dquote +:+ preamble_tail.

Definition dosage_section : string := "
    4. **Dosage Information:**
       - Typical adult dosage
       - Pediatric dosage (if applicable)
       - Administration route
       - Frequency of administration
        ".

Definition safety_section : string := "
    5. **Safety Information:**
       - Common side effects
       - Serious/rare side effects
       - Contraindications
       - Important warnings and precautions
        ".

Definition interactions_section : string := "
    6. **Drug Interactions:**
       - Major drug interactions
       - Food interactions
       - Alcohol interactions
        ".

Definition closing_instructions : string := "

    **Important Instructions:**
    - Only use information from authoritative medical sources (FDA, EMA, PubMed, medical textbooks, official drug labels)
    - Ensure all information is current and accurate
    - If certain information is not available or unclear, state that explicitly
    - Include the sources where you found this information
    - Format the response in clear, structured sections
    - Use medical terminology appropriately but explain complex terms

    Please search the web for the most current and accurate information about this drug.
    ".

Definition create_drug_search_prompt (drug_name : string)
    (include_dosage include_side_effects include_interactions : bool) : string :=
  let base_prompt := preamble drug_name in
  let base_prompt :=
    if include_dosage then base_prompt +:+ dosage_section else base_prompt in
  let base_prompt :=
    if include_side_effects then base_prompt +:+ safety_section else base_prompt in
  let base_prompt :=
    if include_interactions then base_prompt +:+ interactions_section else base_prompt in
  let base_prompt := base_prompt +:+ closing_instructions in
  base_prompt.

(** A section that is present or left out. *)
Definition optional (present : bool) (section : string) : string :=
  if present then section else EmptyString.

(** The prompt as the specification describes it: an ordered list of
    sections, each with the condition under which it is present, filtered
    and joined. *)
Definition join_sections (sections : list (bool * string)) : string :=
  foldr (fun (x : bool * string) acc => if x.1 then x.2 +:+ acc else acc)
    EmptyString sections.

Definition prompt_layout (drug_name : string)
    (include_dosage include_side_effects include_interactions : bool)
    : list (bool * string) :=
  [ (true, preamble drug_name);
    (include_dosage, dosage_section);
    (include_side_effects, safety_section);
    (include_interactions, interactions_section);
    (true, closing_instructions) ].

End PromptBuilder.

Import PromptBuilder.

(** ** Exceptions, the outside world and handler computations *)

Module Runtime.

(** One entry of a validation error: where the offending field is and what
    is wrong with it. *)
Inductive Violation : Type := Missing | StringTooShort | StringTooLong.

Record FieldError : Type := { loc : list string; violation : Violation }.

(** Exceptions.  Every class that occurs is a subclass of [Exception]; a
    class the program does not name is kept by its name and its [str()]. *)
Inductive exn : Type :=
| HTTPException (status_code : nat) (detail : string)
| ValidationError (errors : list FieldError)
| Exception (class_name : string) (text : string).

Inductive result (A : Type) : Type :=
| Ok (a : A)
| Raise (e : exn).

Arguments Ok {A} a.
Arguments Raise {A} e.

(** [datetime] values are points on the wall clock, [timedelta] their
    differences, both counted in microseconds.  [total_seconds()] is the
    float that divides a [timedelta] by 10^6; the model keeps the exact
    number of microseconds. *)
Definition datetime : Type := Z.
Definition timedelta : Type := Z.
Definition total_seconds (d : timedelta) : Z := d.

End Runtime.

Import Runtime.

(** The provider's client library, as far as the program touches it. *)
Module OpenAI.

Record Client : Type := { api_key : string }.

Record ChatCompletionMessage : Type := { content : option string }.
Record Choice : Type := { message : ChatCompletionMessage }.
Record ChatCompletion : Type := { choices : list Choice }.

End OpenAI.

Module Effects.

(** Everything the program reads from outside: the process environment
    after [load_dotenv()], the constructor of the client, the clock (its
    successive readings), the rendering of timestamps and of validation
    errors, and the provider (its answer to the k-th call). *)
Record World : Type := {
  environ : gmap string string;
  OpenAI_init : string -> result OpenAI.Client;
  clock : nat -> datetime;
  isoformat : datetime -> string;
  validation_text : list FieldError -> string;
  completions_create :
    OpenAI.Client -> nat -> gmap string pyval -> result OpenAI.ChatCompletion
}.

(** What a handler does that is visible from outside, in order: readings of
    the clock, calls of the prompt builder, calls of the provider. *)
Inductive Event : Type :=
| EvNow (t : datetime)
| EvPrompt (drug_name : string)
    (include_dosage include_side_effects include_interactions : bool)
| EvCreate (kwargs : gmap string pyval).

Definition is_now (e : Event) : bool :=
  match e with EvNow _ => true | _ => false end.
Definition is_create (e : Event) : bool :=
  match e with EvCreate _ => true | _ => false end.

(** The keyword arguments of the provider calls in a log. *)
Definition provider_calls (l : list Event) : list (gmap string pyval) :=
  omap (fun e => match e with EvCreate kw => Some kw | _ => None end) l.

(** A computation reads the world, extends the log, and returns or
    raises. *)
Definition M (A : Type) : Type := World -> list Event -> result A * list Event.

#[export] Instance M_ret : MRet M := fun A a _ l => (Ok a, l).

#[export] Instance M_bind : MBind M := fun A B f m w l =>
  match m w l with
  | (Ok a, l') => f a w l'
  | (Raise e, l') => (Raise e, l')
  end.

(** [raise e]. *)
Definition raise {A : Type} (e : exn) : M A := fun _ l => (Raise e, l).

(** [try: body except Exception as e: handler e]. *)
Definition try_except {A : Type} (body : M A) (handler : exn -> M A) : M A :=
  fun w l =>
    match body w l with
    | (Ok a, l') => (Ok a, l')
    | (Raise e, l') => handler e w l'
    end.

(** How many times the clock was read, and the provider called, in a log. *)
Definition clock_reads (l : list Event) : nat := length (filter is_now l).
Definition provider_call_count (l : list Event) : nat := length (filter is_create l).

(** [str(e)]. *)
Definition str (w : World) (e : exn) : string :=
  match e with
  | HTTPException status_code detail => pretty status_code +:+ ": " +:+ detail
  | ValidationError errors => validation_text w errors
  | Exception _ text => text
  end.

(** [datetime.now()]. *)
Definition datetime_now : M datetime :=
  fun w l =>
    let t := clock w (clock_reads l) in
    (Ok t, (l ++ [EvNow t])%list).

(** [client.chat.completions.create] with the given keyword arguments. *)
Definition chat_completions_create (client : OpenAI.Client)
    (kwargs : gmap string pyval) : M OpenAI.ChatCompletion :=
  fun w l =>
    (completions_create w client (provider_call_count l) kwargs,
     (l ++ [EvCreate kwargs])%list).

(** A call of the prompt builder, which the log records. *)
Definition call_create_drug_search_prompt (drug_name : string)
    (include_dosage include_side_effects include_interactions : bool) : M string :=
  fun _ l =>
    (Ok (create_drug_search_prompt drug_name include_dosage include_side_effects
           include_interactions),
     (l ++ [EvPrompt drug_name include_dosage include_side_effects
              include_interactions])%list).

(** [response.choices[0].message.content]. *)
Definition first_choice_content (response : OpenAI.ChatCompletion) : M (option string) :=
  match OpenAI.choices response with
  | [] => raise (Exception "IndexError" "list index out of range")
  | c :: _ => mret (OpenAI.content (OpenAI.message c))
  end.

(** Whether the process environment holds a provider credential: the
    variable is set and not empty. *)
Definition credential_configured (w : World) : bool :=
  match environ w !! "OPENAI_API_KEY" with
  | Some api_key => truthy api_key
  | None => false
  end.

(** The module-level initialisation of the global [openai_client]: the
    client is built when the credential is there and the constructor does
    not raise.  The messages printed on the other paths are left out. *)
Definition openai_client (w : World) : option OpenAI.Client :=
  match environ w !! "OPENAI_API_KEY" with
  | Some api_key =>
      if truthy api_key then
        match OpenAI_init w api_key with
        | Ok client => Some client
        | Raise _ => None
        end
      else None
  | None => None
  end.

(** A call that returns or raises without touching the outside. *)
Definition lift {A : Type} (r : result A) : M A := fun _ l => (r, l).

(** Reading the global inside a handler. *)
Definition global_openai_client : M (option OpenAI.Client) :=
  fun w l => (Ok (openai_client w), l).

(** Access to the library functions the world provides. *)
Definition world : M World := fun w l => (Ok w, l).

End Effects.

Import Effects.

(** ** The application: models, handlers and routes *)

Module Api.

(** *** Pydantic models *)

Record DrugSearchRequest : Type := {
  drug_name : string;
  include_dosage : bool;
  include_side_effects : bool;
  include_interactions : bool
}.

(** [processing_time] is kept in microseconds, see [total_seconds]. *)
Record APIResponse : Type := {
  success : bool;
  data : option pyval;
  message : option string;
  error : option string;
  processing_time : option Z
}.

(** [Field(..., min_length=1, max_length=100)] on a [str]: the constraint
    that both the request model and the query parameter declare. *)
Definition check_length (s : string) : option Violation :=
  if (String.length s <? 1)%nat then Some StringTooShort
  else if (100 <? String.length s)%nat then Some StringTooLong
  else None.

(** Validation of a required, length-constrained string found at [where_]. *)
Definition validate_drug_name (where_ : string) (v : option string)
    : list FieldError + string :=
  match v with
  | None => inl [ {| loc := [where_; "drug_name"]; violation := Missing |} ]
  | Some s =>
      match check_length s with
      | Some viol => inl [ {| loc := [where_; "drug_name"]; violation := viol |} ]
      | None => inr s
      end
  end.

(** The constructor [DrugSearchRequest(drug_name=..., ...)]: it validates
    its fields and raises [ValidationError] when one is refused. *)
Definition DrugSearchRequest_init (drug_name : string)
    (include_dosage include_side_effects include_interactions : bool)
    : result DrugSearchRequest :=
  match check_length drug_name with
  | Some viol => Raise (ValidationError [ {| loc := ["drug_name"]; violation := viol |} ])
  | None =>
      Ok {| drug_name := drug_name;
            include_dosage := include_dosage;
            include_side_effects := include_side_effects;
            include_interactions := include_interactions |}
  end.

(** A JSON body sent to [POST /search/drug], its fields present or not.
    The model covers bodies whose present fields have the declared JSON
    types. *)
Record DrugSearchBody : Type := {
  body_drug_name : option string;
  body_include_dosage : option bool;
  body_include_side_effects : option bool;
  body_include_interactions : option bool
}.

(** Parsing a body into the request model: the required field is checked,
    an absent flag takes its declared default. *)
Definition parse_body (b : DrugSearchBody) : list FieldError + DrugSearchRequest :=
  match validate_drug_name "body" (body_drug_name b) with
  | inl errs => inl errs
  | inr s =>
      inr {| drug_name := s;
             include_dosage := default true (body_include_dosage b);
             include_side_effects := default true (body_include_side_effects b);
             include_interactions := default false (body_include_interactions b) |}
  end.

(** *** Handlers *)

Definition system_instruction : string :=
  "You are a medical information specialist. Search the web to find accurate, up-to-date drug information from authoritative medical sources like FDA, EMA, PubMed, and medical literature. Provide comprehensive, well-structured responses with source citations.".

(** The keyword arguments of the provider call made by [search_drug]. *)
Definition search_kwargs (search_prompt : string) : gmap string pyval :=
  {[ "model" := PStr "gpt-4o-search-preview";
     "messages" :=
       PList [ PDict {[ "role" := PStr "system"; "content" := PStr system_instruction ]};
               PDict {[ "role" := PStr "user"; "content" := PStr search_prompt ]} ];
     "max_tokens" := PInt 2000 ]}.

(** The keyword arguments of the provider call made by [health_check]. *)
Definition health_kwargs : gmap string pyval :=
  {[ "model" := PStr "gpt-4o";
     "messages" :=
       PList [ PDict {[ "role" := PStr "user";
                        "content" := PStr "Say 'API connection successful'" ]} ];
     "max_tokens" := PInt 10 ]}.

Definition health_check : M (gmap string string) :=
  try_except
    (configured ← global_openai_client;
     match configured with
     | None =>
         t ← datetime_now;
         w ← world;
         mret ({[ "status" := "warning";
                  "openai_client" := "not_configured";
                  "message" := "OpenAI API key not configured";
                  "timestamp" := isoformat w t ]} : gmap string string)
     | Some client =>
         response ← chat_completions_create client health_kwargs;
         t ← datetime_now;
         w ← world;
         mret ({[ "status" := "healthy";
                  "openai_client" := "connected";
                  "model" := "gpt-4o";
                  "timestamp" := isoformat w t ]} : gmap string string)
     end)
    (fun e =>
       t ← datetime_now;
       w ← world;
       mret ({[ "status" := "error";
                "openai_client" := "error";
                "error" := str w e;
                "timestamp" := isoformat w t ]} : gmap string string)).

Definition search_drug (request : DrugSearchRequest) : M APIResponse :=
  configured ← global_openai_client;
  match configured with
  | None =>
      raise (HTTPException 503
        "OpenAI client not configured. Please set OPENAI_API_KEY environment variable.")
  | Some client =>
      start_time ← datetime_now;
      try_except
        (search_prompt ←
           call_create_drug_search_prompt (drug_name request) (include_dosage request)
             (include_side_effects request) (include_interactions request);
         response ← chat_completions_create client (search_kwargs search_prompt);
         drug_info_text ← first_choice_content response;
         finished ← datetime_now;
         let processing_time := total_seconds (finished - start_time)%Z in
         w ← world;
         mret
           {| success := true;
              data := Some (PDict
                {[ "drug_name" := PStr (drug_name request);
                   "search_query" := PStr (slice_to 200 search_prompt +:+ "...");
                   "drug_information" := of_optional_str drug_info_text;
                   "search_options" := PDict
                     {[ "include_dosage" := PBool (include_dosage request);
                        "include_side_effects" := PBool (include_side_effects request);
                        "include_interactions" := PBool (include_interactions request) ]};
                   "timestamp" := PStr (isoformat w start_time) ]});
              message := Some ("Successfully retrieved information for '"
                               +:+ drug_name request +:+ "'");
              error := None;
              processing_time := Some processing_time |})
        (fun e =>
           finished ← datetime_now;
           let processing_time := total_seconds (finished - start_time)%Z in
           w ← world;
           raise (HTTPException 500
             ("Failed to search for drug information: " +:+ str w e)))
  end.

Definition quick_drug_search (drug_name : string) : M APIResponse :=
  request ← lift (DrugSearchRequest_init drug_name true true false);
  search_drug request.

(** *** Routes

    What the framework does around a handler: it validates the declared
    inputs and answers 422 without calling the handler when they are
    refused; it turns a returned value into a 200 response, an
    [HTTPException] into a response with its status and detail, and any
    other exception into a 500 response. *)

Inductive Body : Type :=
| JSONModel (r : APIResponse)
| JSONDict (d : gmap string string)
| JSONDetail (detail : string)
| JSONValidationErrors (errors : list FieldError)
| PlainText (text : string).

Record HTTPResponse : Type := { status_code : nat; body : Body }.

Definition respond {A : Type} (to_body : A -> Body) (handler : M A)
    (w : World) (l : list Event) : HTTPResponse * list Event :=
  match handler w l with
  | (Ok a, l') => ({| status_code := 200; body := to_body a |}, l')
  | (Raise (HTTPException status detail), l') =>
      ({| status_code := status; body := JSONDetail detail |}, l')
  | (Raise _, l') =>
      ({| status_code := 500; body := PlainText "Internal Server Error" |}, l')
  end.

Definition unprocessable (errors : list FieldError)
    (w : World) (l : list Event) : HTTPResponse * list Event :=
  ({| status_code := 422; body := JSONValidationErrors errors |}, l).

(** [GET /health]. *)
Definition get_health : World -> list Event -> HTTPResponse * list Event :=
  respond JSONDict health_check.

(** [POST /search/drug]. *)
Definition post_search_drug (b : DrugSearchBody)
    : World -> list Event -> HTTPResponse * list Event :=
  match parse_body b with
  | inl errors => unprocessable errors
  | inr request => respond JSONModel (search_drug request)
  end.

(** [GET /search/quick?drug_name=...]. *)
Definition get_search_quick (query_drug_name : option string)
    : World -> list Event -> HTTPResponse * list Event :=
  match validate_drug_name "query" query_drug_name with
  | inl errors => unprocessable errors
  | inr drug_name => respond JSONModel (quick_drug_search drug_name)
  end.

(** An entry of the [data] dictionary of an envelope. *)
Definition data_field (key : string) (r : APIResponse) : option pyval :=
  match data r with
  | Some (PDict m) => m !! key
  | _ => None
  end.

(** The envelope a response carries, when it carries one. *)
Definition envelope (r : HTTPResponse) : option APIResponse :=
  match body r with
  | JSONModel e => Some e
  | _ => None
  end.

End Api.

Import Api.

(** ** Sample worlds and requests *)

Module Samples.

Definition answer (text : string) : OpenAI.ChatCompletion :=
  {| OpenAI.choices :=
       [ {| OpenAI.message := {| OpenAI.content := Some text |} |} ] |}.

(** A configured service whose provider answers. *)
Definition world_answering : World :=
  {| environ := {[ "OPENAI_API_KEY" := "sk-sample" ]};
     OpenAI_init := fun k => Ok {| OpenAI.api_key := k |};
     clock := fun k => (1000 + 250 * Z.of_nat k)%Z;
     isoformat := fun t => pretty t;
     validation_text := fun _ => "validation error";
     completions_create := fun _ _ _ => Ok (answer "Aspirin is a salicylate.") |}.

(** A configured service whose provider fails. *)
Definition world_failing : World :=
  {| environ := {[ "OPENAI_API_KEY" := "sk-sample" ]};
     OpenAI_init := fun k => Ok {| OpenAI.api_key := k |};
     clock := fun k => (1000 + 250 * Z.of_nat k)%Z;
     isoformat := fun t => pretty t;
     validation_text := fun _ => "validation error";
     completions_create := fun _ _ _ => Raise (Exception "APIConnectionError" "Connection error.") |}.

(** A service started without a credential. *)
Definition world_unconfigured : World :=
  {| environ := ∅;
     OpenAI_init := fun k => Ok {| OpenAI.api_key := k |};
     clock := fun k => (1000 + 250 * Z.of_nat k)%Z;
     isoformat := fun t => pretty t;
     validation_text := fun _ => "validation error";
     completions_create := fun _ _ _ => Ok (answer "unreachable") |}.

Definition aspirin_request : DrugSearchRequest :=
  {| drug_name := "aspirin";
     include_dosage := true;
     include_side_effects := true;
     include_interactions := false |}.

Definition aspirin_body : DrugSearchBody :=
  {| body_drug_name := Some "aspirin";
     body_include_dosage := Some true;
     body_include_side_effects := Some true;
     body_include_interactions := Some false |}.

(** A body whose drug name is one space. *)
Definition blank_body : DrugSearchBody :=
  {| body_drug_name := Some " ";
     body_include_dosage := None;
     body_include_side_effects := None;
     body_include_interactions := None |}.

Definition blank_request : DrugSearchRequest :=
  {| drug_name := " ";
     include_dosage := true;
     include_side_effects := true;
     include_interactions := false |}.

Definition sample_client : OpenAI.Client := {| OpenAI.api_key := "sk-sample" |}.

(** [c * n] in Python: [n] copies of a character. *)
Fixpoint repeat_char (c : Ascii.ascii) (n : nat) : string :=
  match n with
  | O => EmptyString
  | S n' => String c (repeat_char c n')
  end.

(** A drug name of exactly 101 characters, all of them the letter a. *)
Definition name_101 : string := repeat_char (Ascii.ascii_of_nat 97) 101.

End Samples.

Import Samples.

(** ** Outcomes written out

    The values that the statements below compare the handlers with. *)

Module Outcomes.

(** The envelope of a search that succeeded. *)
Definition search_envelope (w : World) (request : DrugSearchRequest)
    (drug_info_text : option string) (start_time finished : datetime) : APIResponse :=
  let search_prompt :=
    create_drug_search_prompt (drug_name request) (include_dosage request)
      (include_side_effects request) (include_interactions request) in
  {| success := true;
     data := Some (PDict
       {[ "drug_name" := PStr (drug_name request);
          "search_query" := PStr (slice_to 200 search_prompt +:+ "...");
          "drug_information" := of_optional_str drug_info_text;
          "search_options" := PDict
            {[ "include_dosage" := PBool (include_dosage request);
               "include_side_effects" := PBool (include_side_effects request);
               "include_interactions" := PBool (include_interactions request) ]};
          "timestamp" := PStr (isoformat w start_time) ]});
     message := Some ("Successfully retrieved information for '"
                      +:+ drug_name request +:+ "'");
     error := None;
     processing_time := Some (finished - start_time)%Z |}.

(** The condition raised when no client is configured. *)
Definition service_unavailable : exn :=
  HTTPException 503
    "OpenAI client not configured. Please set OPENAI_API_KEY environment variable.".

(** The condition raised when the search failed with the text [reason]. *)
Definition search_failed (reason : string) : exn :=
  HTTPException 500 ("Failed to search for drug information: " +:+ reason).

(** The three answers of the health probe. *)
Definition health_warning (timestamp : string) : gmap string string :=
  {[ "status" := "warning";
     "openai_client" := "not_configured";
     "message" := "OpenAI API key not configured";
     "timestamp" := timestamp ]}.

Definition health_healthy (timestamp : string) : gmap string string :=
  {[ "status" := "healthy";
     "openai_client" := "connected";
     "model" := "gpt-4o";
     "timestamp" := timestamp ]}.

Definition health_error (failure timestamp : string) : gmap string string :=
  {[ "status" := "error";
     "openai_client" := "error";
     "error" := failure;
     "timestamp" := timestamp ]}.

(** The failure envelope that the specification describes for an upstream
    error with text [E]: not successful, an error field that contains [E],
    and a processing time that is present and not negative. *)
Definition failure_envelope (E : string) (r : APIResponse) : Prop :=
  success r = false
  /\ (exists text, error r = Some text /\ contains E text)
  /\ (exists t, processing_time r = Some t /\ (0 <= t)%Z).

(** The prompt built for a request. *)
Definition prompt_of (request : DrugSearchRequest) : string :=
  create_drug_search_prompt (drug_name request) (include_dosage request)
    (include_side_effects request) (include_interactions request).

(** The log of a search that got as far as the provider, from the log [l]
    it started with. *)
Definition search_log (w : World) (request : DrugSearchRequest)
    (l : list Event) : list Event :=
  (l ++ [ EvNow (clock w (clock_reads l));
          EvPrompt (drug_name request) (include_dosage request)
            (include_side_effects request) (include_interactions request);
          EvCreate (search_kwargs (prompt_of request));
          EvNow (clock w (S (clock_reads l))) ])%list.

End Outcomes.

Import Outcomes.

(** ** The static handlers and the route table *)

Module Info.

(** [GET /]: the welcome payload. *)
Definition root : M (gmap string string) :=
  mret ({[ "message" := "Welcome to PharmacyGenius Drug Search API";
           "version" := "1.0.0";
           "powered_by" := "GPT-4o Search Preview";
           "docs" := "/docs";
           "redoc" := "/redoc" ]} : gmap string string).

Definition api_info : M APIResponse :=
  mret
    {| success := true;
       data := Some (PDict
         {[ "api_name" := PStr "PharmacyGenius Drug Search API";
            "version" := PStr "1.0.0";
            "powered_by" := PStr "GPT-4o Search Preview";
            "capabilities" := PList
              [ PStr "Real-time web search for drug information";
                PStr "Structured drug data extraction";
                PStr "Authoritative source verification";
                PStr "Comprehensive drug profiles";
                PStr "Dosage and safety information";
                PStr "Drug interaction checking" ];
            "endpoints" := PDict
              {[ "/search/drug" := PStr "Main drug search endpoint with detailed options";
                 "/search/quick" := PStr "Quick drug search with drug name only";
                 "/health" := PStr "API health check";
                 "/info" := PStr "API information" ]};
            "data_sources" := PList
              [ PStr "FDA (Food and Drug Administration)";
                PStr "EMA (European Medicines Agency)";
                PStr "PubMed";
                PStr "Official drug labels";
                PStr "Medical literature databases" ];
            "rate_limits" := PStr "Standard OpenAI API limits apply";
            "authentication" := PStr "OpenAI API key required" ]});
       message := Some "API information retrieved successfully";
       error := None;
       processing_time := None |}.

(** A request to one of the five routes that the application declares, with
    the inputs that the route takes. *)
Inductive Call : Type :=
| GetRoot
| GetHealth
| PostSearchDrug (b : DrugSearchBody)
| GetSearchQuick (query_drug_name : option string)
| GetInfo.

(** The application: each route with its handler. *)
Definition app (c : Call) : World -> list Event -> HTTPResponse * list Event :=
  match c with
  | GetRoot => respond JSONDict root
  | GetHealth => get_health
  | PostSearchDrug b => post_search_drug b
  | GetSearchQuick q => get_search_quick q
  | GetInfo => respond JSONModel api_info
  end.

(** The drug name and the flags that a call asks a search for, when its
    inputs pass validation. *)
Definition requested (c : Call) : option DrugSearchRequest :=
  match c with
  | PostSearchDrug b =>
      match parse_body b with
      | inr request => Some request
      | inl _ => None
      end
  | GetSearchQuick q =>
      match validate_drug_name "query" q with
      | inr name =>
          Some {| drug_name := name; include_dosage := true;
                  include_side_effects := true; include_interactions := false |}
      | inl _ => None
      end
  | _ => None
  end.

(** Whether a response is the one that the framework gives when a handler
    lets an exception other than [HTTPException] escape. *)
Definition is_unhandled (r : HTTPResponse) : bool :=
  match body r with
  | PlainText _ => true
  | _ => false
  end.

(** Whether a call is one of the two search routes. *)
Definition is_search (c : Call) : bool :=
  match c with
  | PostSearchDrug _ | GetSearchQuick _ => true
  | _ => false
  end.

End Info.

Import Info.

(** ** The environment file

    [load_dotenv()], which [main.py] calls before it reads the credential:
    the variables of the [.env] file are added to the process environment,
    and a variable that the environment already has keeps its value. *)

Module Dotenv.

Definition load_dotenv (dotenv_file os_environ : gmap string string)
    : gmap string string :=
  os_environ ∪ dotenv_file.

End Dotenv.

(** ** The start script, [start_api.py] *)

Module Launcher.

Definition newline : string := String (Ascii.ascii_of_nat 10) EmptyString.

(** [s * n]. *)
Fixpoint str_mul (s : string) (n : nat) : string :=
  match n with
  | O => EmptyString
  | S n' => s +:+ str_mul s n'
  end.

(** [c.lower()] for a character of one byte: the capital letters of ASCII
    and of Latin-1 move to their small forms. *)
Definition lower_char (c : Ascii.ascii) : Ascii.ascii :=
  let n := Ascii.nat_of_ascii c in
  if ((65 <=? n) && (n <=? 90)
      || (192 <=? n) && (n <=? 222) && negb (n =? 215))%nat
  then Ascii.ascii_of_nat (n + 32)
  else c.

(** [s.lower()]. *)
Fixpoint lower (s : string) : string :=
  match s with
  | EmptyString => EmptyString
  | String c s' => String (lower_char c) (lower s')
  end.

(** The exceptions of the script.  [ImportError] stands for the class and
    its subclasses, [OtherException] for any other subclass of [Exception];
    [KeyboardInterrupt] and [SystemExit] are not subclasses of
    [Exception]. *)
Inductive exc : Type :=
| ImportError (text : string)
| OtherException (class_name text : string)
| KeyboardInterrupt
| SystemExit (code : Z).

Definition is_ImportError (e : exc) : bool :=
  match e with ImportError _ => true | _ => false end.
Definition is_KeyboardInterrupt (e : exc) : bool :=
  match e with KeyboardInterrupt => true | _ => false end.
Definition is_Exception (e : exc) : bool :=
  match e with ImportError _ | OtherException _ _ => true | _ => false end.

(** [str(e)]. *)
Definition exc_text (e : exc) : string :=
  match e with
  | ImportError text => text
  | OtherException _ text => text
  | KeyboardInterrupt => EmptyString
  | SystemExit code => pretty code
  end.

Inductive outcome (A : Type) : Type :=
| Returns (a : A)
| Raises (e : exc).

Arguments Returns {A} a.
Arguments Raises {A} e.

(** What the script meets outside: which imports fail and how, the process
    environment, the path of the interpreter, what the user types at a
    prompt, and how the child process ends ([None]: it ran and returned). *)
Record Shell : Type := {
  import_module : string -> option exc;
  os_environ : gmap string string;
  sys_executable : string;
  stdin : string -> outcome string;
  run_child : list string -> option exc
}.

(** What the script does, in order. *)
Inductive Action : Type :=
| Printed (line : string)
| Imported (name : string)
| GotEnv (name : string)
| Asked (prompt : string)
| Ran (args : list string).

Definition printed (l : list Action) : list string :=
  omap (fun a => match a with Printed s => Some s | _ => None end) l.
Definition imported (l : list Action) : list string :=
  omap (fun a => match a with Imported s => Some s | _ => None end) l.
Definition env_reads (l : list Action) : list string :=
  omap (fun a => match a with GotEnv s => Some s | _ => None end) l.
Definition asked (l : list Action) : list string :=
  omap (fun a => match a with Asked s => Some s | _ => None end) l.
Definition ran (l : list Action) : list (list string) :=
  omap (fun a => match a with Ran args => Some args | _ => None end) l.

Definition P (A : Type) : Type := Shell -> list Action -> outcome A * list Action.

#[export] Instance P_ret : MRet P := fun A a _ l => (Returns a, l).

#[export] Instance P_bind : MBind P := fun A B f m sh l =>
  match m sh l with
  | (Returns a, l') => f a sh l'
  | (Raises e, l') => (Raises e, l')
  end.

(** [try: body] followed by [except] clauses: the first clause whose class
    the exception belongs to handles it; an exception raised by a handler is
    not handled again. *)
Fixpoint select_clause {A : Type} (clauses : list ((exc -> bool) * (exc -> P A)))
    (e : exc) : option (P A) :=
  match clauses with
  | [] => None
  | (catches, handler) :: rest =>
      if catches e then Some (handler e) else select_clause rest e
  end.

Definition try_clauses {A : Type} (body : P A)
    (clauses : list ((exc -> bool) * (exc -> P A))) : P A :=
  fun sh l =>
    match body sh l with
    | (Returns a, l') => (Returns a, l')
    | (Raises e, l') =>
        match select_clause clauses e with
        | Some handler => handler sh l'
        | None => (Raises e, l')
        end
    end.

Definition print (line : string) : P unit :=
  fun _ l => (Returns tt, (l ++ [Printed line])%list).

(** [import name]. *)
Definition import_ (name : string) : P unit :=
  fun sh l =>
    (match import_module sh name with
     | None => Returns tt
     | Some e => Raises e
     end, (l ++ [Imported name])%list).

(** [os.getenv(name)]. *)
Definition getenv (name : string) : P (option string) :=
  fun sh l => (Returns (os_environ sh !! name), (l ++ [GotEnv name])%list).

Definition input (prompt : string) : P string :=
  fun sh l => (stdin sh prompt, (l ++ [Asked prompt])%list).

(** [subprocess.run(args)]. *)
Definition subprocess_run (args : list string) : P unit :=
  fun sh l =>
    (match run_child sh args with
     | None => Returns tt
     | Some e => Raises e
     end, (l ++ [Ran args])%list).

(** [sys.exit(code)]. *)
Definition sys_exit (code : Z) : P unit :=
  fun _ l => (Raises (SystemExit code), l).

Definition shell : P Shell := fun sh l => (Returns sh, l).

Definition check_requirements : P bool :=
  try_clauses
    (import_ "fastapi";;
     import_ "uvicorn";;
     import_ "openai";;
     import_ "pydantic";;
     print " All required packages are installed";;
     mret true)
    [ (is_ImportError, fun e =>
         print (" Missing required package: " +:+ exc_text e);;
         print "Please install requirements: pip install -r requirements.txt";;
         mret false) ].

Definition check_openai_key : P bool :=
  api_key ← getenv "OPENAI_API_KEY";
  if negb (from_option truthy false api_key) then
    print "  OpenAI API key not found!";;
    print "Please set your OpenAI API key:";;
    print "  Windows: set OPENAI_API_KEY=your_key_here";;
    print "  Linux/Mac: export OPENAI_API_KEY=your_key_here";;
    print "  Or create a .env file with: OPENAI_API_KEY=your_key_here";;
    mret false
  else
    print " OpenAI API key configured";;
    mret true.

Definition start_api : P unit :=
  print " Starting PharmacyGenius Search API...";;
  print " API Documentation will be available at: http://localhost:8000/docs";;
  print " Postman collection: PharmacyGenius_Search_API.postman_collection.json";;
  print (str_mul "=" 60);;
  try_clauses
    (sh ← shell;
     subprocess_run
       [ sys_executable sh; "-m"; "uvicorn";
         "main:app";
         "--host"; "0.0.0.0";
         "--port"; "8000";
         "--reload" ])
    [ (is_KeyboardInterrupt, fun _ => print (newline +:+ " API server stopped"));
      (is_Exception, fun e => print (" Error starting API: " +:+ exc_text e)) ].

Definition main : P unit :=
  print " PharmacyGenius Search API";;
  print (str_mul "=" 60);;
  requirements ← check_requirements;
  (if negb requirements then sys_exit 1 else mret tt);;
  configured ← check_openai_key;
  (if negb configured then
     print (newline
            +:+ "  API will start but OpenAI features won't work without the API key");;
     print "You can still test the health and info endpoints";;
     response ← input (newline +:+ "Continue anyway? (y/N): ");
     if negb (String.eqb (lower response) "y") then sys_exit 1 else mret tt
   else mret tt);;
  start_api.

(** *** What the statements below speak of *)

(** The packages that the script needs, in the order in which it imports
    them. *)
Definition required_packages : list string :=
  [ "fastapi"; "uvicorn"; "openai"; "pydantic" ].

(** The first required package whose import raises, with what it raises. *)
Fixpoint first_failure (sh : Shell) (packages : list string) : option (string * exc) :=
  match packages with
  | [] => None
  | name :: rest =>
      match import_module sh name with
      | Some e => Some (name, e)
      | None => first_failure sh rest
      end
  end.

(** The packages whose import the script attempts: up to and including the
    first that raises. *)
Fixpoint attempted (sh : Shell) (packages : list string) : list string :=
  match packages with
  | [] => []
  | name :: rest =>
      match import_module sh name with
      | Some _ => [name]
      | None => name :: attempted sh rest
      end
  end.

(** The credential is in the environment of the script and not empty. *)
Definition key_set (sh : Shell) : bool :=
  from_option truthy false (os_environ sh !! "OPENAI_API_KEY").

Definition continue_prompt : string := newline +:+ "Continue anyway? (y/N): ".

(** The user answers the prompt with a text whose small form is [y]. *)
Definition answers_yes (sh : Shell) : bool :=
  match stdin sh continue_prompt with
  | Returns response => String.eqb (lower response) "y"
  | Raises _ => false
  end.

(** Whether the script gets as far as starting the server: every required
    package imports, and the credential is set or the user says yes. *)
Definition will_start (sh : Shell) : bool :=
  match first_failure sh required_packages with
  | Some _ => false
  | None => key_set sh || answers_yes sh
  end.

(** The command line of the server. *)
Definition server_command (sh : Shell) : list string :=
  [ sys_executable sh; "-m"; "uvicorn"; "main:app"; "--host"; "0.0.0.0";
    "--port"; "8000"; "--reload" ].

(** How the run of the child shows in what [start_api] returns and prints. *)
Definition after_child (sh : Shell) : outcome unit * list string :=
  match run_child sh (server_command sh) with
  | None => (Returns tt, [])
  | Some e =>
      if is_KeyboardInterrupt e then
        (Returns tt, [ newline +:+ " API server stopped" ])
      else if is_Exception e then
        (Returns tt, [ " Error starting API: " +:+ exc_text e ])
      else (Raises e, [])
  end.

Definition banner : list string :=
  [ " Starting PharmacyGenius Search API...";
    " API Documentation will be available at: http://localhost:8000/docs";
    " Postman collection: PharmacyGenius_Search_API.postman_collection.json";
    str_mul "=" 60 ].

End Launcher.

(** ** Further sample worlds and shells *)

Module MoreSamples.

(** A configured service whose provider answers without any choice. *)
Definition world_no_choices : World :=
  {| environ := {[ "OPENAI_API_KEY" := "sk-sample" ]};
     OpenAI_init := fun k => Ok {| OpenAI.api_key := k |};
     clock := fun k => (1000 + 250 * Z.of_nat k)%Z;
     isoformat := fun t => pretty t;
     validation_text := fun _ => "validation error";
     completions_create := fun _ _ _ => Ok {| OpenAI.choices := [] |} |}.

(** A service with a credential whose client cannot be built. *)
Definition world_broken_constructor : World :=
  {| environ := {[ "OPENAI_API_KEY" := "sk-sample" ]};
     OpenAI_init := fun _ => Raise (Exception "TypeError" "unexpected keyword argument");
     clock := fun k => (1000 + 250 * Z.of_nat k)%Z;
     isoformat := fun t => pretty t;
     validation_text := fun _ => "validation error";
     completions_create := fun _ _ _ => Ok (answer "unreachable") |}.

(** A configured service whose clock is set back between two readings, and
    whose provider gives two choices, the first without content. *)
Definition world_clock_set_back : World :=
  {| environ := {[ "OPENAI_API_KEY" := "sk-sample" ]};
     OpenAI_init := fun k => Ok {| OpenAI.api_key := k |};
     clock := fun k => (1000 - 250 * Z.of_nat k)%Z;
     isoformat := fun t => pretty t;
     validation_text := fun _ => "validation error";
     completions_create := fun _ _ _ =>
       Ok {| OpenAI.choices :=
               [ {| OpenAI.message := {| OpenAI.content := None |} |};
                 {| OpenAI.message := {| OpenAI.content := Some "second" |} |} ] |} |}.

(** A provider that serves the model of the health probe and refuses the
    model of the search. *)
Definition world_probe_only : World :=
  {| environ := {[ "OPENAI_API_KEY" := "sk-sample" ]};
     OpenAI_init := fun k => Ok {| OpenAI.api_key := k |};
     clock := fun k => (1000 + 250 * Z.of_nat k)%Z;
     isoformat := fun t => pretty t;
     validation_text := fun _ => "validation error";
     completions_create := fun _ _ kwargs =>
       match kwargs !! "model" with
       | Some (PStr "gpt-4o") => Ok (answer "API connection successful")
       | _ => Raise (Exception "NotFoundError" "model not available")
       end |}.

(** A name of 150 characters. *)
Definition name_150 : string := repeat_char (Ascii.ascii_of_nat 97) 150.

(** A machine where everything is in place. *)
Definition shell_ready : Launcher.Shell :=
  {| Launcher.import_module := fun _ => None;
     Launcher.os_environ := {[ "OPENAI_API_KEY" := "sk-sample" ]};
     Launcher.sys_executable := "/usr/bin/python3";
     Launcher.stdin := fun _ => Launcher.Returns EmptyString;
     Launcher.run_child := fun _ => None |}.

(** A machine without the credential, whose user types a capital Y and
    later stops the server from the keyboard. *)
Definition shell_no_key_yes : Launcher.Shell :=
  {| Launcher.import_module := fun _ => None;
     Launcher.os_environ := ∅;
     Launcher.sys_executable := "/usr/bin/python3";
     Launcher.stdin := fun _ => Launcher.Returns "Y";
     Launcher.run_child := fun _ => Some Launcher.KeyboardInterrupt |}.

(** A machine without the credential, whose user just presses return. *)
Definition shell_no_key_default : Launcher.Shell :=
  {| Launcher.import_module := fun _ => None;
     Launcher.os_environ := ∅;
     Launcher.sys_executable := "/usr/bin/python3";
     Launcher.stdin := fun _ => Launcher.Returns EmptyString;
     Launcher.run_child := fun _ => None |}.

(** A machine on which the third package is not installed. *)
Definition shell_missing_package : Launcher.Shell :=
  {| Launcher.import_module := fun name =>
       if String.eqb name "openai"
       then Some (Launcher.ImportError "No module named 'openai'")
       else None;
     Launcher.os_environ := {[ "OPENAI_API_KEY" := "sk-sample" ]};
     Launcher.sys_executable := "/usr/bin/python3";
     Launcher.stdin := fun _ => Launcher.Returns "y";
     Launcher.run_child := fun _ => None |}.

(** An environment file that holds the credential. *)
Definition dotenv_with_key : gmap string string :=
  {[ "OPENAI_API_KEY" := "sk-from-file" ]}.

(** The service started from [shell_no_key_default] beside that file. *)
Definition world_from_dotenv : World :=
  {| environ :=
       Dotenv.load_dotenv dotenv_with_key (Launcher.os_environ shell_no_key_default);
     OpenAI_init := fun k => Ok {| OpenAI.api_key := k |};
     clock := fun k => (1000 + 250 * Z.of_nat k)%Z;
     isoformat := fun t => pretty t;
     validation_text := fun _ => "validation error";
     completions_create := fun _ _ _ => Ok (answer "Aspirin is a salicylate.") |}.

End MoreSamples.

Import MoreSamples.

(** ** The health probe as the specification words it *)

Module Described.


End Described.

Import Described.

(** * Properties *)

(** ** Strings *)

Section StringFacts.

Lemma str_app_nil (t : string) : EmptyString +:+ t = t.
Proof. reflexivity. Qed.

Lemma str_app_cons (c : Ascii.ascii) (s t : string) :
  String c s +:+ t = String c (s +:+ t).
Proof. reflexivity. Qed.

Lemma str_app_empty_r (s : string) : s +:+ EmptyString = s.
Proof.
  induction s as [|c s IH]; [reflexivity|].
  now rewrite str_app_cons, IH.
Qed.

Lemma str_app_assoc (s1 s2 s3 : string) : (s1 +:+ s2) +:+ s3 = s1 +:+ (s2 +:+ s3).
Proof.
  induction s1 as [|c s1 IH]; [reflexivity|].
  now rewrite !str_app_cons, IH.
Qed.

Lemma str_length_app (s1 s2 : string) :
  String.length (s1 +:+ s2) = (String.length s1 + String.length s2)%nat.
Proof.
  induction s1 as [|c s1 IH]; [reflexivity|].
  rewrite str_app_cons. simpl. now rewrite IH.
Qed.

Lemma length_slice_to (n : nat) (s : string) :
  String.length (slice_to n s) = Nat.min n (String.length s).
Proof.
  revert s; induction n as [|n IH]; intros [|c s]; simpl; try reflexivity.
  now rewrite IH.
Qed.

(** Once the prefix is long enough, what follows it does not show in the
    slice. *)
Lemma slice_to_app (n : nat) (p r : string) :
  (n <= String.length p)%nat -> slice_to n (p +:+ r) = slice_to n p.
Proof.
  revert p; induction n as [|n IH]; intros [|c p] Hlen; simpl in Hlen.
  - now destruct r.
  - reflexivity.
  - lia.
  - rewrite str_app_cons. simpl. rewrite IH by lia. reflexivity.
Qed.

Lemma contains_app_r (p s : string) : contains s (p +:+ s).
Proof. exists p, EmptyString. now rewrite str_app_empty_r. Qed.

Lemma starts_with_spec (p s : string) :
  starts_with p s = true <-> startswith p s.
Proof.
  revert s; induction p as [|a p IH]; intros s.
  - split; [intros _; now exists s | reflexivity].
  - destruct s as [|b s]; simpl.
    + split; [discriminate | intros [post H]; discriminate H].
    + destruct (Ascii.eqb_spec a b) as [->|Hab].
      * rewrite IH. split; intros [post H]; exists post.
        -- now rewrite str_app_cons, <- H.
        -- rewrite str_app_cons in H. now injection H.
      * split; [discriminate|].
        intros [post H]. rewrite str_app_cons in H. injection H as H _. congruence.
Qed.

Lemma occurs_spec (needle hay : string) :
  occurs needle hay = true <-> contains needle hay.
Proof.
  induction hay as [|b hay IH].
  - simpl. rewrite orb_false_r, starts_with_spec. split.
    + intros [post H]. exists EmptyString, post. exact H.
    + intros (pre & post & H). destruct pre as [|c pre].
      * now exists post.
      * rewrite str_app_cons in H. discriminate H.
  - cbn [occurs]. rewrite orb_true_iff, starts_with_spec, IH. split.
    + intros [[post H] | (pre & post & H)].
      * exists EmptyString, post. exact H.
      * exists (String b pre), post. now rewrite str_app_cons, <- H.
    + intros (pre & post & H). destruct pre as [|c pre].
      * left. now exists post.
      * right. rewrite str_app_cons in H. injection H as _ H. now exists pre, post.
Qed.

(** A text that has no [q] in it cannot run across a [q]. *)
Lemma starts_with_across (q : Ascii.ascii) (needle before after : string) :
  has_char q needle = false -> needle <> EmptyString ->
  starts_with needle (before +:+ String q after) = starts_with needle before.
Proof.
  revert needle; induction before as [|b before IH]; intros [|a needle] Hq Hne;
    try congruence.
  - rewrite str_app_nil. simpl in *. apply orb_false_iff in Hq as [Hq _].
    rewrite Ascii.eqb_sym in Hq. now rewrite Hq.
  - rewrite str_app_cons. simpl in *. apply orb_false_iff in Hq as [_ Hq].
    destruct (Ascii.eqb a b); [|reflexivity].
    destruct needle as [|a' needle]; [now destruct before|].
    now apply IH.
Qed.

Lemma occurs_across (q : Ascii.ascii) (needle before after : string) :
  has_char q needle = false -> needle <> EmptyString ->
  occurs needle (before +:+ String q after)
  = occurs needle before || occurs needle after.
Proof.
  intros Hq Hne. induction before as [|b before IH].
  - rewrite str_app_nil. cbn [occurs].
    rewrite <- (str_app_nil (String q after)) at 1.
    rewrite starts_with_across by assumption.
    now rewrite orb_false_r.
  - rewrite str_app_cons. cbn [occurs]. rewrite <- str_app_cons.
    rewrite starts_with_across, IH by assumption.
    now rewrite orb_assoc.
Qed.

Lemma starts_with_longer (needle hay : string) :
  (String.length hay < String.length needle)%nat -> starts_with needle hay = false.
Proof.
  revert hay; induction needle as [|a needle IH]; intros [|b hay] H; simpl in *;
    try lia; try reflexivity.
  destruct (Ascii.eqb a b); [apply IH; lia | reflexivity].
Qed.

Lemma occurs_longer (needle hay : string) :
  (String.length hay < String.length needle)%nat -> occurs needle hay = false.
Proof.
  induction hay as [|b hay IH]; intros H; cbn [occurs].
  - now rewrite starts_with_longer.
  - rewrite starts_with_longer by assumption. simpl in H. rewrite IH by lia.
    reflexivity.
Qed.

End StringFacts.

(** ** The prompt builder *)

Section PromptFacts.

Implicit Types (drug_name : string).
Implicit Types (include_dosage include_side_effects include_interactions : bool).

(** The successive [+=] of the builder, flattened. *)
Lemma create_drug_search_prompt_flat drug_name include_dosage
    include_side_effects include_interactions :
  create_drug_search_prompt drug_name include_dosage include_side_effects
    include_interactions =
  preamble drug_name +:+ optional include_dosage dosage_section
    +:+ optional include_side_effects safety_section
    +:+ optional include_interactions interactions_section
    +:+ closing_instructions.
Proof.
  unfold create_drug_search_prompt, optional.
  destruct include_dosage, include_side_effects, include_interactions;
    cbv zeta; rewrite ?str_app_assoc; reflexivity.
Qed.

Lemma join_sections_layout drug_name include_dosage include_side_effects
    include_interactions :
  join_sections (prompt_layout drug_name include_dosage include_side_effects
                   include_interactions) =
  preamble drug_name +:+ optional include_dosage dosage_section
    +:+ optional include_side_effects safety_section
    +:+ optional include_interactions interactions_section
    +:+ closing_instructions.
Proof.
  unfold join_sections, prompt_layout, optional. cbn [foldr fst snd].
  rewrite str_app_empty_r.
  destruct include_dosage, include_side_effects, include_interactions;
    reflexivity.
Qed.

(** What follows the preamble tells the three flags apart: the eight
    combinations give eight different texts. *)
Lemma optional_sections_inj (a b c a' b' c' : bool) :
  optional a dosage_section +:+ optional b safety_section
    +:+ optional c interactions_section +:+ closing_instructions =
  optional a' dosage_section +:+ optional b' safety_section
    +:+ optional c' interactions_section +:+ closing_instructions ->
  a = a' /\ b = b' /\ c = c'.
Proof.
  intros H. apply String.eqb_eq in H.
  destruct a, b, c, a', b', c';
    first [ repeat split; reflexivity | vm_compute in H; discriminate H ].
Qed.

Lemma preamble_long drug_name : (200 <= String.length (preamble drug_name))%nat.
Proof.
  unfold preamble. rewrite !str_length_app.
  assert (String.length preamble_tail = 642%nat) as -> by (vm_compute; reflexivity).
  lia.
Qed.

Lemma slice_prompt_is_slice_preamble drug_name include_dosage
    include_side_effects include_interactions :
  slice_to 200 (create_drug_search_prompt drug_name include_dosage
                  include_side_effects include_interactions) =
  slice_to 200 (preamble drug_name).
Proof.
  rewrite create_drug_search_prompt_flat.
  apply slice_to_app, preamble_long.
Qed.

(** The preamble opens every prompt and the closing block ends it. *)
Lemma prompt_starts_with_preamble drug_name include_dosage
    include_side_effects include_interactions :
  startswith (preamble drug_name)
    (create_drug_search_prompt drug_name include_dosage include_side_effects
       include_interactions).
Proof. eexists. apply create_drug_search_prompt_flat. Qed.

Lemma prompt_ends_with_closing drug_name include_dosage
    include_side_effects include_interactions :
  endswith closing_instructions
    (create_drug_search_prompt drug_name include_dosage include_side_effects
       include_interactions).
Proof.
  rewrite create_drug_search_prompt_flat.
  eexists. rewrite <- !str_app_assoc. reflexivity.
Qed.

(** Where a text without a double quote can occur in a prompt: before the
    quoted drug name, inside it, or after it. *)
Lemma occurs_in_prompt (text : string) drug_name include_dosage
    include_side_effects include_interactions :
  has_char (Ascii.ascii_of_nat 34) text = false -> text <> EmptyString ->
  occurs text (create_drug_search_prompt drug_name include_dosage
                 include_side_effects include_interactions)
  = occurs text preamble_head
    || (occurs text drug_name
        || occurs text
             (preamble_tail +:+ optional include_dosage dosage_section
                +:+ optional include_side_effects safety_section
                +:+ optional include_interactions interactions_section
                +:+ closing_instructions)).
Proof.
  intros Hq Hne. rewrite create_drug_search_prompt_flat.
  unfold preamble, dquote. rewrite !str_app_assoc, !str_app_cons, !str_app_nil.
  now rewrite !occurs_across by assumption.
Qed.

(** For a drug name of at most 100 characters, each optional section occurs
    in the prompt exactly when its flag is set. *)
Lemma sections_occur drug_name include_dosage include_side_effects
    include_interactions :
  (String.length drug_name <= 100)%nat ->
  let prompt :=
    create_drug_search_prompt drug_name include_dosage include_side_effects
      include_interactions in
  occurs dosage_section prompt = include_dosage
  /\ occurs safety_section prompt = include_side_effects
  /\ occurs interactions_section prompt = include_interactions.
Proof.
  intros Hlen. cbv zeta.
  assert (Hd : occurs dosage_section drug_name = false).
  { apply occurs_longer.
    assert (String.length dosage_section = 179%nat) as -> by (vm_compute; reflexivity).
    lia. }
  assert (Hs : occurs safety_section drug_name = false).
  { apply occurs_longer.
    assert (String.length safety_section = 175%nat) as -> by (vm_compute; reflexivity).
    lia. }
  assert (Hi : occurs interactions_section drug_name = false).
  { apply occurs_longer.
    assert (String.length interactions_section = 129%nat) as -> by (vm_compute; reflexivity).
    lia. }
  rewrite !occurs_in_prompt by (vm_compute; (reflexivity || discriminate)).
  rewrite Hd, Hs, Hi.
  destruct include_dosage, include_side_effects, include_interactions;
    vm_compute; repeat split; reflexivity.
Qed.

(** C1.  For every drug name and each of the eight combinations of the
    flags, the built prompt is the preamble, then the dosage section exactly
    when [include_dosage] holds, then the safety section exactly when
    [include_side_effects] holds, then the interactions section exactly when
    [include_interactions] holds, then the closing instructions, in that
    order: it is the join of the ordered layout, it starts with the preamble
    and ends with the closing block, and it is the join of no layout with
    other flags.  When the drug name has at most 100 characters, as every
    validated name has, the text of each optional section occurs in the
    prompt exactly when its flag is set. *)
Theorem create_drug_search_prompt_sections drug_name include_dosage
    include_side_effects include_interactions :
  let prompt :=
    create_drug_search_prompt drug_name include_dosage include_side_effects
      include_interactions in
  prompt = join_sections (prompt_layout drug_name include_dosage
                            include_side_effects include_interactions)
  /\ startswith (preamble drug_name) prompt
  /\ endswith closing_instructions prompt
  /\ (forall a b c : bool,
        prompt = join_sections (prompt_layout drug_name a b c) ->
        a = include_dosage /\ b = include_side_effects /\ c = include_interactions)
  /\ ((String.length drug_name <= 100)%nat ->
      (contains dosage_section prompt <-> include_dosage = true)
      /\ (contains safety_section prompt <-> include_side_effects = true)
      /\ (contains interactions_section prompt <-> include_interactions = true)).
Proof.
  cbv zeta. split; [|split; [|split; [|split]]].
  - now rewrite join_sections_layout, create_drug_search_prompt_flat.
  - apply prompt_starts_with_preamble.
  - apply prompt_ends_with_closing.
  - intros a b c H.
    rewrite join_sections_layout, create_drug_search_prompt_flat in H.
    apply (inj (String.append (preamble drug_name))) in H.
    apply optional_sections_inj in H. intuition congruence.
  - intros Hlen.
    destruct (sections_occur drug_name include_dosage include_side_effects
                include_interactions Hlen) as (Hd & Hs & Hi).
    rewrite <- !occurs_spec, Hd, Hs, Hi. tauto.
Qed.

End PromptFacts.

(** ** Logs *)

Section LogFacts.

Lemma clock_reads_app (l k : list Event) :
  clock_reads (l ++ k) = (clock_reads l + clock_reads k)%nat.
Proof. unfold clock_reads. now rewrite filter_app, length_app. Qed.

Lemma provider_call_count_app (l k : list Event) :
  provider_call_count (l ++ k) = (provider_call_count l + provider_call_count k)%nat.
Proof. unfold provider_call_count. now rewrite filter_app, length_app. Qed.

Lemma provider_calls_app (l k : list Event) :
  provider_calls (l ++ k) = (provider_calls l ++ provider_calls k)%list.
Proof. apply omap_app. Qed.

End LogFacts.

(** ** Runs of the handlers *)

Section Runs.

Variable w : World.
Variable l : list Event.

Lemma reads_before_finish (t : datetime) (drug_name : string) (a b c : bool)
    (kwargs : gmap string pyval) :
  clock_reads (((l ++ [EvNow t]) ++ [EvPrompt drug_name a b c]) ++ [EvCreate kwargs])
  = S (clock_reads l).
Proof.
  rewrite !clock_reads_app.
  change (clock_reads [EvNow t]) with 1%nat.
  change (clock_reads [EvPrompt drug_name a b c]) with 0%nat.
  change (clock_reads [EvCreate kwargs]) with 0%nat.
  lia.
Qed.

(** The whole behaviour of [search_drug], case by case. *)
Lemma search_drug_run (request : DrugSearchRequest) :
  search_drug request w l =
  match openai_client w with
  | None => (Raise service_unavailable, l)
  | Some client =>
      let start_time := clock w (clock_reads l) in
      let finished := clock w (S (clock_reads l)) in
      match completions_create w client (provider_call_count l)
              (search_kwargs (prompt_of request)) with
      | Ok response =>
          match OpenAI.choices response with
          | [] => (Raise (search_failed "list index out of range"),
                   search_log w request l)
          | c :: _ =>
              (Ok (search_envelope w request (OpenAI.content (OpenAI.message c))
                     start_time finished),
               search_log w request l)
          end
      | Raise e => (Raise (search_failed (str w e)), search_log w request l)
      end
  end.
Proof.
  unfold search_drug, mbind, M_bind, global_openai_client.
  destruct (openai_client w) as [client|]; [|reflexivity].
  unfold datetime_now, try_except, call_create_drug_search_prompt,
    chat_completions_create, first_choice_content, world, raise, mret, M_ret.
  fold (prompt_of request).
  rewrite !provider_call_count_app, !Nat.add_0_r.
  change (provider_call_count [EvNow _]) with 0%nat.
  destruct (completions_create w client _ _) as [response|e].
  - destruct (OpenAI.choices response) as [|c rest]; cbv iota beta;
      rewrite reads_before_finish; unfold search_log, search_failed, search_envelope,
        total_seconds; rewrite <- !(assoc_L (++)); reflexivity.
  - rewrite reads_before_finish. unfold search_log, search_failed.
    rewrite <- !(assoc_L (++)). reflexivity.
Qed.

(** The whole behaviour of [health_check]: it never raises. *)
Lemma health_check_run :
  health_check w l =
  let timestamp := isoformat w (clock w (clock_reads l)) in
  match openai_client w with
  | None =>
      (Ok (health_warning timestamp), (l ++ [EvNow (clock w (clock_reads l))])%list)
  | Some client =>
      let l' := (l ++ [EvCreate health_kwargs; EvNow (clock w (clock_reads l))])%list in
      match completions_create w client (provider_call_count l) health_kwargs with
      | Ok _ => (Ok (health_healthy timestamp), l')
      | Raise e => (Ok (health_error (str w e) timestamp), l')
      end
  end.
Proof.
  unfold health_check, try_except, mbind, M_bind, global_openai_client.
  destruct (openai_client w) as [client|].
  - unfold chat_completions_create, datetime_now, world, mret, M_ret.
    destruct (completions_create w client _ _) as [response|e]; cbv zeta iota beta;
      rewrite clock_reads_app; change (clock_reads [EvCreate health_kwargs]) with 0%nat;
      rewrite Nat.add_0_r, <- (assoc_L (++)); reflexivity.
  - reflexivity.
Qed.

End Runs.

(** ** Input validation *)

Section Validation.

Implicit Types (w : World) (l : list Event) (b : DrugSearchBody).

Lemma check_length_accepts (s : string) :
  check_length s = None <-> (1 <= String.length s <= 100)%nat.
Proof.
  unfold check_length.
  destruct (Nat.ltb_spec (String.length s) 1);
    [|destruct (Nat.ltb_spec 100 (String.length s))];
    split; intros H'; try discriminate; try reflexivity; lia.
Qed.

Lemma check_length_refuses (s : string) :
  s = EmptyString \/ (100 < String.length s)%nat ->
  exists viol, check_length s = Some viol.
Proof.
  intros H. destruct (check_length s) as [viol|] eqn:E; [eauto|].
  apply check_length_accepts in E.
  destruct H as [-> | H]; simpl in *; lia.
Qed.

Lemma parse_body_accepted b request :
  parse_body b = inr request ->
  body_drug_name b = Some (drug_name request)
  /\ check_length (drug_name request) = None.
Proof.
  unfold parse_body, validate_drug_name.
  destruct (body_drug_name b) as [s|]; [|discriminate].
  destruct (check_length s) eqn:E; [discriminate|].
  intros [= <-]. now split.
Qed.

(** A refused drug name is answered 422 and nothing is run. *)
Lemma refused_name_is_unprocessable w l b (name : string) (viol : Violation) :
  body_drug_name b = Some name ->
  check_length name = Some viol ->
  post_search_drug b w l
  = ({| status_code := 422;
        body := JSONValidationErrors
                  [ {| loc := ["body"; "drug_name"]; violation := viol |} ] |}, l).
Proof.
  intros Hname Hviol.
  unfold post_search_drug, parse_body, validate_drug_name.
  now rewrite Hname, Hviol.
Qed.

End Validation.

(** ** The search gateway *)

Section Gateway.

Implicit Types (w : World) (l : list Event) (request : DrugSearchRequest).

Lemma provider_calls_search_log w request l :
  provider_calls (search_log w request l)
  = (provider_calls l ++ [search_kwargs (prompt_of request)])%list.
Proof. unfold search_log. now rewrite provider_calls_app. Qed.

(** With a configured client the log of a search is always the same four
    entries, whatever the provider answers. *)
Lemma search_drug_log w request l client :
  openai_client w = Some client ->
  (search_drug request w l).2 = search_log w request l.
Proof.
  intros Hc. rewrite search_drug_run, Hc. cbv zeta.
  destruct (completions_create w client _ _) as [response|e]; [|reflexivity].
  now destruct (OpenAI.choices response).
Qed.

(** A search returns an envelope only in one way. *)
Lemma search_drug_returns w request l r l' :
  search_drug request w l = (Ok r, l') ->
  exists drug_info_text,
    r = search_envelope w request drug_info_text
          (clock w (clock_reads l)) (clock w (S (clock_reads l)))
    /\ l' = search_log w request l.
Proof.
  rewrite search_drug_run.
  destruct (openai_client w) as [client|]; [|discriminate].
  cbv zeta.
  destruct (completions_create w client _ _) as [response|e]; [|discriminate].
  destruct (OpenAI.choices response) as [|c rest]; [discriminate|].
  intros [= <- <-]. eauto.
Qed.

(** C3.  When no provider client is configured, the search operation fails
    with the 503 condition and leaves the log as it found it: the clock has
    not been read, the prompt builder has not been called and the provider
    has not been called.  The route answers with status 503, for a request
    in its detailed form as for one in its quick form. *)
Theorem search_drug_without_client w request l :
  openai_client w = None ->
  search_drug request w l = (Raise service_unavailable, l)
  /\ respond JSONModel (search_drug request) w l
     = ({| status_code := 503;
           body := JSONDetail
             "OpenAI client not configured. Please set OPENAI_API_KEY environment variable." |},
        l)
  /\ (forall b, parse_body b = inr request ->
        status_code (post_search_drug b w l).1 = 503%nat
        /\ (post_search_drug b w l).2 = l)
  /\ (forall name : string, (1 <= String.length name <= 100)%nat ->
        status_code (get_search_quick (Some name) w l).1 = 503%nat
        /\ (get_search_quick (Some name) w l).2 = l).
Proof.
  intros Hc.
  assert (Hrun : forall q, search_drug q w l = (Raise service_unavailable, l)).
  { intros q. now rewrite search_drug_run, Hc. }
  split; [apply Hrun|]. split.
  { unfold respond. now rewrite Hrun. }
  split.
  - intros b Hb. unfold post_search_drug. rewrite Hb. unfold respond.
    rewrite Hrun. now split.
  - intros name Hname. apply check_length_accepts in Hname.
    unfold get_search_quick, validate_drug_name. rewrite Hname.
    unfold respond, quick_drug_search, mbind, M_bind, lift, DrugSearchRequest_init.
    rewrite Hname, Hrun. now split.
Qed.

(** C2, as the program has it.  When the provider call raises an error [e],
    the search operation returns no envelope: it raises the 500 condition
    whose detail is the fixed prefix followed by the text of [e], so that the
    detail contains that text; the route answers with status 500 and that
    detail; and the provider has been called exactly once. *)
Theorem search_drug_upstream_failure w request l client e :
  openai_client w = Some client ->
  completions_create w client (provider_call_count l)
    (search_kwargs (prompt_of request)) = Raise e ->
  (search_drug request w l).1 = Raise (search_failed (str w e))
  /\ contains (str w e) ("Failed to search for drug information: " +:+ str w e)
  /\ (respond JSONModel (search_drug request) w l).1
     = {| status_code := 500;
          body := JSONDetail ("Failed to search for drug information: " +:+ str w e) |}
  /\ provider_calls (search_drug request w l).2
     = (provider_calls l ++ [search_kwargs (prompt_of request)])%list.
Proof.
  intros Hc He.
  assert (Hrun : search_drug request w l
                 = (Raise (search_failed (str w e)), search_log w request l)).
  { rewrite search_drug_run, Hc. cbv zeta. now rewrite He. }
  split; [now rewrite Hrun|]. split; [apply contains_app_r|]. split.
  - unfold respond. now rewrite Hrun.
  - rewrite Hrun. apply provider_calls_search_log.
Qed.

(** The [search_query] entry of a returned envelope. *)
Lemma search_drug_search_query w request l r l' :
  search_drug request w l = (Ok r, l') ->
  success r = true
  /\ data_field "search_query" r
     = Some (PStr (slice_to 200 (prompt_of request) +:+ "...")).
Proof.
  intros Hrun. apply search_drug_returns in Hrun as (text & -> & _).
  split; reflexivity.
Qed.

(** C5.  Whenever the search operation returns an envelope, the envelope is
    a success and the [search_query] entry of its data is the first 200
    characters of the built prompt followed by three dots; those are exactly
    200 characters, the prompt being longer. *)
Theorem search_query_is_truncated_prompt w request l r l' :
  search_drug request w l = (Ok r, l') ->
  let search_prompt :=
    create_drug_search_prompt (drug_name request) (include_dosage request)
      (include_side_effects request) (include_interactions request) in
  success r = true
  /\ data_field "search_query" r = Some (PStr (slice_to 200 search_prompt +:+ "..."))
  /\ String.length (slice_to 200 search_prompt) = 200%nat.
Proof.
  intros Hrun. apply search_drug_search_query in Hrun as [Hs Hq].
  cbv zeta. split; [exact Hs|]. split; [exact Hq|].
  rewrite length_slice_to.
  pose proof (preamble_long (drug_name request)) as Hlong.
  rewrite create_drug_search_prompt_flat, str_length_app. lia.
Qed.

(** C8.  With a configured client, the search operation calls the provider
    exactly once, whatever the provider answers.  The call carries the fixed
    system instruction and then the built prompt as the user message, bounds
    the output by 2000, and has no [temperature] argument: its arguments are
    [model], [messages] and [max_tokens] and no other. *)
Theorem search_drug_calls_provider_once w request l client :
  openai_client w = Some client ->
  let search_prompt :=
    create_drug_search_prompt (drug_name request) (include_dosage request)
      (include_side_effects request) (include_interactions request) in
  exists kwargs,
    provider_calls (search_drug request w l).2 = (provider_calls l ++ [kwargs])%list
    /\ kwargs !! "messages"
       = Some (PList
           [ PDict {[ "role" := PStr "system"; "content" := PStr system_instruction ]};
             PDict {[ "role" := PStr "user"; "content" := PStr search_prompt ]} ])
    /\ kwargs !! "max_tokens" = Some (PInt 2000)
    /\ kwargs !! "temperature" = None
    /\ dom kwargs = ({[ "model"; "messages"; "max_tokens" ]} : gset string).
Proof.
  intros Hc. cbv zeta. exists (search_kwargs (prompt_of request)).
  split.
  { rewrite (search_drug_log _ _ _ _ Hc). apply provider_calls_search_log. }
  unfold search_kwargs, prompt_of.
  repeat split; reflexivity.
Qed.

End Gateway.

(** ** Input validation and the routes *)

Section Routes.

Implicit Types (w : World) (l : list Event) (b : DrugSearchBody).

(** C7.  A body whose drug name is empty or has more than 100 characters is
    answered with the client error 422 and the log is left as it was found:
    the prompt builder has not been called, nor the clock read, nor the
    provider called. *)
Theorem invalid_drug_name_rejected w l b (name : string) :
  body_drug_name b = Some name ->
  name = EmptyString \/ (100 < String.length name)%nat ->
  exists errors,
    post_search_drug b w l
    = ({| status_code := 422; body := JSONValidationErrors errors |}, l).
Proof.
  intros Hname Hbad. apply check_length_refuses in Hbad as [viol Hviol].
  eexists. exact (refused_name_is_unprocessable w l b name viol Hname Hviol).
Qed.

(** C9, as the program has it.  An accepted request has a drug name of 1 to
    100 characters, counted as sent, so it is not empty; the same holds of a
    request built by the constructor; and a body whose drug name is empty is
    answered 422 with the log left as it was found, so it reaches neither
    the prompt builder nor the gateway. *)
Theorem accepted_drug_name_length b request :
  parse_body b = inr request ->
  (1 <= String.length (drug_name request) <= 100)%nat
  /\ drug_name request <> EmptyString
  /\ (forall name a s i r,
        DrugSearchRequest_init name a s i = Ok r ->
        (1 <= String.length (drug_name r) <= 100)%nat)
  /\ (forall b' w l,
        body_drug_name b' = Some EmptyString ->
        status_code (post_search_drug b' w l).1 = 422%nat
        /\ (post_search_drug b' w l).2 = l).
Proof.
  intros Hb. apply parse_body_accepted in Hb as [_ Hlen].
  apply check_length_accepts in Hlen.
  split; [exact Hlen|]. split.
  { intros E. rewrite E in Hlen. simpl in Hlen. lia. }
  split.
  - intros name a s i r. unfold DrugSearchRequest_init.
    destruct (check_length name) eqn:E; [discriminate|].
    intros [= <-]. simpl. now apply check_length_accepts.
  - intros b' w l Hempty.
    rewrite (refused_name_is_unprocessable w l b' EmptyString StringTooShort)
      by (assumption || reflexivity).
    now split.
Qed.

(** C4.  For every drug name, the quick route and the detailed route called
    with that name and the flags true, true, false answer with the same
    status and the same envelope and leave the same log.  When the name has
    1 to 100 characters the two answers are equal altogether, and the quick
    handler is the detailed handler run on that request. *)
Theorem quick_search_is_detailed_search w l (name : string) :
  let detailed :=
    {| body_drug_name := Some name;
       body_include_dosage := Some true;
       body_include_side_effects := Some true;
       body_include_interactions := Some false |} in
  let request :=
    {| drug_name := name;
       include_dosage := true;
       include_side_effects := true;
       include_interactions := false |} in
  status_code (get_search_quick (Some name) w l).1
  = status_code (post_search_drug detailed w l).1
  /\ envelope (get_search_quick (Some name) w l).1
     = envelope (post_search_drug detailed w l).1
  /\ (get_search_quick (Some name) w l).2 = (post_search_drug detailed w l).2
  /\ ((1 <= String.length name <= 100)%nat ->
      quick_drug_search name w l = search_drug request w l
      /\ get_search_quick (Some name) w l = post_search_drug detailed w l).
Proof.
  cbv zeta.
  unfold get_search_quick, post_search_drug, parse_body, validate_drug_name,
    quick_drug_search, DrugSearchRequest_init, respond, mbind, M_bind, lift.
  cbn [body_drug_name body_include_dosage body_include_side_effects
       body_include_interactions default id].
  destruct (check_length name) as [viol|] eqn:E.
  - split; [reflexivity|]. split; [reflexivity|]. split; [reflexivity|].
    intros Hlen. apply check_length_accepts in Hlen. congruence.
  - rewrite E.
    split; [reflexivity|]. split; [reflexivity|]. split; [reflexivity|].
    intros _. split; reflexivity.
Qed.


End Routes.

(** ** The preview and the flags *)

Section Preview.

(** C10.  For a fixed drug name the first 200 characters of the built prompt
    are the same under all eight combinations of the flags, and so are the
    [search_query] entries of the envelopes of any two successful searches
    for that name, whatever their flags, their worlds and their logs. *)
Theorem preview_ignores_flags (name : string) (a b c a' b' c' : bool) :
  slice_to 200 (create_drug_search_prompt name a b c)
  = slice_to 200 (create_drug_search_prompt name a' b' c')
  /\ forall w w' l l' r r' k k',
       search_drug {| drug_name := name; include_dosage := a;
                      include_side_effects := b; include_interactions := c |} w l
       = (Ok r, k) ->
       search_drug {| drug_name := name; include_dosage := a';
                      include_side_effects := b'; include_interactions := c' |} w' l'
       = (Ok r', k') ->
       data_field "search_query" r = data_field "search_query" r'.
Proof.
  assert (Hslice : slice_to 200 (create_drug_search_prompt name a b c)
                   = slice_to 200 (create_drug_search_prompt name a' b' c')).
  { now rewrite !slice_prompt_is_slice_preamble. }
  split; [exact Hslice|].
  intros w w' l l' r r' k k' Hr Hr'.
  apply search_drug_search_query in Hr as [_ ->].
  apply search_drug_search_query in Hr' as [_ ->].
  unfold prompt_of.
  cbn [drug_name include_dosage include_side_effects include_interactions].
  now rewrite Hslice.
Qed.

End Preview.

(** ** Where the program departs from its description *)

Section Departures.

(** Against C2: when the provider fails, the search operation raises the 500
    condition; it returns no envelope at all, so none with [success] false,
    an [error] field and a processing time, and the answer of the route
    carries no envelope either. *)
Lemma upstream_failure_is_not_an_envelope :
  (search_drug aspirin_request world_failing []).1
  = Raise (search_failed "Connection error.")
  /\ ~ (exists r, (search_drug aspirin_request world_failing []).1 = Ok r
                  /\ failure_envelope "Connection error." r)
  /\ envelope (post_search_drug aspirin_body world_failing []).1 = None.
Proof.
  assert (H : (search_drug aspirin_request world_failing []).1
              = Raise (search_failed "Connection error.")).
  { rewrite search_drug_run. reflexivity. }
  split; [exact H|]. split.
  - intros (r & Hr & _). rewrite H in Hr. discriminate Hr.
  - unfold post_search_drug, respond. cbn [parse_body aspirin_body].
    change (parse_body aspirin_body) with (inr aspirin_request : list FieldError + _).
    destruct (search_drug aspirin_request world_failing []) as [res k].
    simpl in H. subst res. reflexivity.
Qed.

(** Against C9: a drug name that is one space is accepted although trimming
    it leaves nothing, and the request goes all the way: the prompt builder
    is called with it, the provider is called, and the route answers 200. *)
Lemma blank_drug_name_is_accepted :
  parse_body blank_body = inr blank_request
  /\ strip (drug_name blank_request) = EmptyString
  /\ status_code (post_search_drug blank_body world_answering []).1 = 200%nat
  /\ (post_search_drug blank_body world_answering []).2
     = [ EvNow 1000%Z;
         EvPrompt " " true true false;
         EvCreate (search_kwargs (create_drug_search_prompt " " true true false));
         EvNow 1250%Z ].
Proof.
  split; [reflexivity|]. split; [reflexivity|].
  unfold post_search_drug.
  change (parse_body blank_body) with (inr blank_request : list FieldError + _).
  unfold respond. rewrite search_drug_run. split; reflexivity.
Qed.


End Departures.

(** ** The statements at sample inputs *)

Section Instances.

Lemma create_drug_search_prompt_sections_witness :
  create_drug_search_prompt "aspirin" true true false
  = join_sections (prompt_layout "aspirin" true true false)
  /\ (true = true /\ true = true /\ false = false)
  /\ (String.length "aspirin" <= 100)%nat
  /\ (contains interactions_section
        (create_drug_search_prompt "aspirin" true true false) <-> false = true).
Proof.
  assert (Hlen : (String.length "aspirin" <= 100)%nat) by (simpl; lia).
  pose proof (create_drug_search_prompt_sections "aspirin" true true false)
    as (H1 & _ & _ & H4 & H5).
  split; [exact H1|]. split; [exact (H4 true true false H1)|].
  split; [exact Hlen|]. exact (proj2 (proj2 (H5 Hlen))).
Defined.

Lemma search_drug_upstream_failure_witness :
  openai_client world_failing = Some sample_client
  /\ completions_create world_failing sample_client (provider_call_count [])
       (search_kwargs (prompt_of aspirin_request))
     = Raise (Exception "APIConnectionError" "Connection error.")
  /\ (search_drug aspirin_request world_failing []).1
     = Raise (search_failed "Connection error.").
Proof.
  split; [reflexivity|]. split; [reflexivity|].
  exact (proj1 (search_drug_upstream_failure world_failing aspirin_request []
                  sample_client (Exception "APIConnectionError" "Connection error.")
                  eq_refl eq_refl)).
Defined.

Lemma search_drug_without_client_witness :
  openai_client world_unconfigured = None
  /\ search_drug aspirin_request world_unconfigured []
     = (Raise service_unavailable, []).
Proof.
  split; [reflexivity|].
  exact (proj1 (search_drug_without_client world_unconfigured aspirin_request []
                  eq_refl)).
Defined.

Lemma quick_search_is_detailed_search_witness :
  (1 <= String.length "aspirin" <= 100)%nat
  /\ (quick_drug_search "aspirin" world_answering []
      = search_drug aspirin_request world_answering []
      /\ get_search_quick (Some "aspirin") world_answering []
         = post_search_drug aspirin_body world_answering [])
  /\ (envelope (get_search_quick (Some "aspirin") world_answering []).1
       ≫= data_field "search_options")
     = Some (PDict {[ "include_dosage" := PBool true;
                      "include_side_effects" := PBool true;
                      "include_interactions" := PBool false ]}).
Proof.
  assert (Hlen : (1 <= String.length "aspirin" <= 100)%nat) by (simpl; lia).
  split; [exact Hlen|].
  pose proof (quick_search_is_detailed_search world_answering [] "aspirin")
    as (_ & _ & _ & H).
  split; [exact (H Hlen)|].
  vm_compute. reflexivity.
Defined.

Lemma search_query_is_truncated_prompt_witness :
  search_drug aspirin_request world_answering []
  = (Ok (search_envelope world_answering aspirin_request
           (Some "Aspirin is a salicylate.") 1000%Z 1250%Z),
     search_log world_answering aspirin_request [])
  /\ data_field "search_query"
       (search_envelope world_answering aspirin_request
          (Some "Aspirin is a salicylate.") 1000%Z 1250%Z)
     = Some (PStr (slice_to 200 (create_drug_search_prompt "aspirin" true true false)
                   +:+ "...")).
Proof.
  assert (Hrun : search_drug aspirin_request world_answering []
    = (Ok (search_envelope world_answering aspirin_request
             (Some "Aspirin is a salicylate.") 1000%Z 1250%Z),
       search_log world_answering aspirin_request [])).
  { rewrite search_drug_run. reflexivity. }
  split; [exact Hrun|].
  exact (proj1 (proj2 (search_query_is_truncated_prompt world_answering
                         aspirin_request [] _ _ Hrun))).
Defined.


Lemma invalid_drug_name_rejected_witness :
  String.length name_101 = 101%nat
  /\ exists errors,
       post_search_drug
         {| body_drug_name := Some name_101;
            body_include_dosage := None;
            body_include_side_effects := None;
            body_include_interactions := None |} world_answering []
       = ({| status_code := 422; body := JSONValidationErrors errors |}, []).
Proof.
  split; [reflexivity|].
  apply (invalid_drug_name_rejected world_answering [] _ name_101); [reflexivity|].
  right. vm_compute. lia.
Defined.

Lemma search_drug_calls_provider_once_witness :
  openai_client world_answering = Some sample_client
  /\ exists kwargs,
       provider_calls (search_drug aspirin_request world_answering []).2 = [kwargs]
       /\ kwargs !! "temperature" = None.
Proof.
  split; [reflexivity|].
  destruct (search_drug_calls_provider_once world_answering aspirin_request []
              sample_client eq_refl)
    as (kwargs & Hcalls & _ & _ & Htemp & _).
  exists kwargs. split; [exact Hcalls | exact Htemp].
Defined.

Lemma accepted_drug_name_length_witness :
  parse_body aspirin_body = inr aspirin_request
  /\ (1 <= String.length (drug_name aspirin_request) <= 100)%nat.
Proof.
  split; [reflexivity|].
  exact (proj1 (accepted_drug_name_length aspirin_body aspirin_request eq_refl)).
Defined.

Lemma preview_ignores_flags_witness :
  data_field "search_query"
    (search_envelope world_answering aspirin_request
       (Some "Aspirin is a salicylate.") 1000%Z 1250%Z)
  = data_field "search_query"
      (search_envelope world_answering
         {| drug_name := "aspirin"; include_dosage := false;
            include_side_effects := false; include_interactions := true |}
         (Some "Aspirin is a salicylate.") 1000%Z 1250%Z).
Proof.
  refine (proj2 (preview_ignores_flags "aspirin" true true false false false true)
            world_answering world_answering [] [] _ _ _ _ _ _).
  - rewrite search_drug_run. reflexivity.
  - rewrite search_drug_run. reflexivity.
Defined.

End Instances.

(** * Further properties *)

(** ** More on the prompt builder *)

Section PromptMore.

Implicit Types (drug_name : string).

Lemma has_char_app (q : Ascii.ascii) (s t : string) :
  has_char q (s +:+ t) = has_char q s || has_char q t.
Proof.
  induction s as [|c s IH]; [reflexivity|].
  rewrite str_app_cons. simpl. now rewrite IH, orb_assoc.
Qed.

Lemma has_char_here (q : Ascii.ascii) (s t : string) :
  has_char q (s +:+ String q t) = true.
Proof.
  rewrite has_char_app. simpl. rewrite Ascii.eqb_refl. apply orb_true_r.
Qed.

(** A text is cut in one way only at its last [q]. *)
Lemma cut_at_last (q : Ascii.ascii) (d d' X X' : string) :
  has_char q X = false -> has_char q X' = false ->
  d +:+ String q X = d' +:+ String q X' ->
  d = d' /\ X = X'.
Proof.
  intros HX HX'. revert d'. induction d as [|c d IH]; intros [|c' d'] H.
  - rewrite !str_app_nil in H. injection H as H. now split.
  - rewrite str_app_nil, str_app_cons in H. injection H as _ H.
    rewrite H, has_char_here in HX. discriminate HX.
  - rewrite str_app_nil, str_app_cons in H. injection H as _ H.
    rewrite <- H, has_char_here in HX'. discriminate HX'.
  - rewrite !str_app_cons in H. injection H as -> H.
    destruct (IH d' H) as [-> ->]. now split.
Qed.

Lemma no_quote_after_name (a b c : bool) :
  has_char (Ascii.ascii_of_nat 34)
    (preamble_tail +:+ optional a dosage_section +:+ optional b safety_section
       +:+ optional c interactions_section +:+ closing_instructions) = false.
Proof. destruct a, b, c; vm_compute; reflexivity. Qed.

Lemma prompt_around_name drug_name (a b c : bool) :
  create_drug_search_prompt drug_name a b c
  = preamble_head
    +:+ String (Ascii.ascii_of_nat 34)
          (drug_name
           +:+ String (Ascii.ascii_of_nat 34)
                 (preamble_tail +:+ optional a dosage_section
                    +:+ optional b safety_section
                    +:+ optional c interactions_section +:+ closing_instructions)).
Proof.
  rewrite create_drug_search_prompt_flat. unfold preamble, dquote.
  now rewrite !str_app_assoc, !str_app_cons, !str_app_nil.
Qed.

(** X1.  The prompt tells its request: two calls of the builder that give
    the same prompt were given the same drug name and the same three
    flags. *)
Theorem create_drug_search_prompt_injective drug_name (a b c : bool)
    (drug_name' : string) (a' b' c' : bool) :
  create_drug_search_prompt drug_name a b c
  = create_drug_search_prompt drug_name' a' b' c' ->
  drug_name = drug_name' /\ a = a' /\ b = b' /\ c = c'.
Proof.
  rewrite !prompt_around_name. intros H.
  apply (inj (String.append preamble_head)) in H. injection H as H.
  apply cut_at_last in H as [Hname H]; try apply no_quote_after_name.
  apply (inj (String.append preamble_tail)) in H.
  apply optional_sections_inj in H. now split.
Qed.

(** X2.  The length of the prompt is 1269 characters of fixed text, the
    length of the drug name, and 179, 175 and 129 characters for the dosage,
    safety and interactions sections that are present; so a name of at most
    100 characters gives a prompt of at most 1852 characters. *)
Theorem create_drug_search_prompt_length drug_name (a b c : bool) :
  String.length (create_drug_search_prompt drug_name a b c)
  = (1269 + String.length drug_name
     + (if a then 179 else 0) + (if b then 175 else 0) + (if c then 129 else 0))%nat
  /\ ((String.length drug_name <= 100)%nat ->
      (String.length (create_drug_search_prompt drug_name a b c) <= 1852)%nat).
Proof.
  assert (Hlen : String.length (create_drug_search_prompt drug_name a b c)
    = (1269 + String.length drug_name
       + (if a then 179 else 0) + (if b then 175 else 0) + (if c then 129 else 0))%nat).
  { rewrite prompt_around_name. rewrite str_length_app. cbn [String.length].
    rewrite str_length_app. cbn [String.length].
    assert (String.length preamble_head = 57%nat) as -> by (vm_compute; reflexivity).
    destruct a, b, c;
      match goal with
      | |- context [String.length (preamble_tail +:+ ?r)] =>
          let n := eval vm_compute in (String.length (preamble_tail +:+ r)) in
          change (String.length (preamble_tail +:+ r)) with n
      end; lia. }
  split; [exact Hlen|].
  intros Hname. rewrite Hlen. destruct a, b, c; lia.
Qed.

Lemma slice_to_past (p r : string) (n : nat) :
  slice_to (String.length p + n) (p +:+ r) = p +:+ slice_to n r.
Proof.
  induction p as [|c p IH]; [reflexivity|].
  rewrite !str_app_cons. simpl. now rewrite IH.
Qed.

Lemma slice_to_all (n : nat) (s : string) :
  (String.length s <= n)%nat -> slice_to n s = s.
Proof.
  revert s; induction n as [|n IH]; intros [|c s] H; simpl in *;
    try reflexivity; try lia.
  rewrite IH by lia. reflexivity.
Qed.

(** X3.  The first 200 characters of the prompt, which the envelope shows
    as [search_query], are the 57 characters of the opening, a double quote,
    and the drug name: a name of at most 141 characters in full, with its
    closing quote and the start of the fixed text; a longer name cut to its
    first 142 characters. *)
Theorem preview_shows_drug_name drug_name (a b c : bool) :
  ((String.length drug_name <= 141)%nat ->
   slice_to 200 (create_drug_search_prompt drug_name a b c)
   = preamble_head +:+ dquote +:+ drug_name +:+ dquote
     +:+ slice_to (141 - String.length drug_name) preamble_tail)
  /\ ((142 <= String.length drug_name)%nat ->
      slice_to 200 (create_drug_search_prompt drug_name a b c)
      = preamble_head +:+ dquote +:+ slice_to 142 drug_name).
Proof.
  rewrite slice_prompt_is_slice_preamble. unfold preamble.
  change 200%nat with (String.length preamble_head + 143)%nat.
  rewrite slice_to_past.
  change 143%nat with (String.length dquote + 142)%nat.
  rewrite slice_to_past.
  split; intros H.
  - replace 142%nat
      with (String.length drug_name + S (141 - String.length drug_name))%nat by lia.
    rewrite slice_to_past. unfold dquote at 3. rewrite str_app_cons, str_app_nil.
    cbn [slice_to]. unfold dquote at 3. now rewrite str_app_cons, str_app_nil.
  - now rewrite slice_to_app by lia.
Qed.

End PromptMore.

(** ** More on the search gateway *)

Section GatewayMore.

Implicit Types (w : World) (l : list Event) (request : DrugSearchRequest).
Implicit Types (c : Call).

(** The answer of the framework to a search, case by case. *)
Lemma respond_search_run w request l :
  respond JSONModel (search_drug request) w l =
  match openai_client w with
  | None =>
      ({| status_code := 503;
          body := JSONDetail
            "OpenAI client not configured. Please set OPENAI_API_KEY environment variable." |},
       l)
  | Some client =>
      match completions_create w client (provider_call_count l)
              (search_kwargs (prompt_of request)) with
      | Ok response =>
          match OpenAI.choices response with
          | [] =>
              ({| status_code := 500;
                  body := JSONDetail
                    "Failed to search for drug information: list index out of range" |},
               search_log w request l)
          | choice :: _ =>
              ({| status_code := 200;
                  body := JSONModel
                    (search_envelope w request
                       (OpenAI.content (OpenAI.message choice))
                       (clock w (clock_reads l)) (clock w (S (clock_reads l)))) |},
               search_log w request l)
          end
      | Raise e =>
          ({| status_code := 500;
              body := JSONDetail
                ("Failed to search for drug information: " +:+ str w e) |},
           search_log w request l)
      end
  end.
Proof.
  unfold respond. rewrite search_drug_run.
  destruct (openai_client w) as [client|]; [|reflexivity].
  cbv zeta.
  destruct (completions_create w client _ _) as [response|e]; [|reflexivity].
  now destruct (OpenAI.choices response).
Qed.

(** A search route runs the handler on the request that its inputs ask for,
    and answers 422 without running anything when they ask for none. *)
Lemma app_search_run c w l :
  is_search c = true ->
  app c w l =
  match requested c with
  | Some request => respond JSONModel (search_drug request) w l
  | None =>
      ({| status_code := 422;
          body := JSONValidationErrors
            match c with
            | PostSearchDrug b =>
                match parse_body b with inl errors => errors | inr _ => [] end
            | GetSearchQuick q =>
                match validate_drug_name "query" q with
                | inl errors => errors
                | inr _ => []
                end
            | _ => []
            end |}, l)
  end.
Proof.
  destruct c as [| |b|q|]; try discriminate; intros _; simpl.
  - unfold post_search_drug. now destruct (parse_body b).
  - unfold get_search_quick, validate_drug_name.
    destruct q as [name|]; [|reflexivity].
    destruct (check_length name) eqn:E; [reflexivity|].
    unfold respond, quick_drug_search, mbind, M_bind, lift, DrugSearchRequest_init.
    now rewrite E.
Qed.

(** X4.  A search returns an envelope exactly when a client is configured
    and the provider call returns an answer with at least one choice. *)
Theorem search_drug_returns_iff w request l :
  (exists r l', search_drug request w l = (Ok r, l'))
  <-> (exists client response choice rest,
         openai_client w = Some client
         /\ completions_create w client (provider_call_count l)
              (search_kwargs (prompt_of request)) = Ok response
         /\ OpenAI.choices response = choice :: rest).
Proof.
  rewrite search_drug_run. split.
  - intros (r & l' & H).
    destruct (openai_client w) as [client|]; [|discriminate].
    cbv zeta in H.
    destruct (completions_create w client _ _) as [response|e] eqn:E; [|discriminate].
    destruct (OpenAI.choices response) as [|choice rest] eqn:Ec; [discriminate|].
    exists client, response, choice, rest. now rewrite E.
  - intros (client & response & choice & rest & -> & -> & ->).
    cbv zeta. eauto.
Qed.

(** X5.  The envelope of a search echoes the request: its data carry the
    drug name as sent and the three flags as the handler received them, its
    message quotes the drug name, and its error field is empty. *)
Theorem search_envelope_echoes_request w request l r l' :
  search_drug request w l = (Ok r, l') ->
  data_field "drug_name" r = Some (PStr (drug_name request))
  /\ data_field "search_options" r
     = Some (PDict
         {[ "include_dosage" := PBool (include_dosage request);
            "include_side_effects" := PBool (include_side_effects request);
            "include_interactions" := PBool (include_interactions request) ]})
  /\ message r
     = Some ("Successfully retrieved information for '" +:+ drug_name request +:+ "'")
  /\ error r = None.
Proof.
  intros H. apply search_drug_returns in H as (text & -> & _).
  repeat split; reflexivity.
Qed.

(** X6.  The drug information of the envelope is the content of the first
    choice of the answer: further choices are not looked at, and a first
    choice without content gives [None] in a successful envelope. *)
Theorem drug_information_is_first_choice w request l client response choice rest :
  openai_client w = Some client ->
  completions_create w client (provider_call_count l)
    (search_kwargs (prompt_of request)) = Ok response ->
  OpenAI.choices response = choice :: rest ->
  exists r,
    (search_drug request w l).1 = Ok r
    /\ success r = true
    /\ data_field "drug_information" r
       = Some (match OpenAI.content (OpenAI.message choice) with
               | Some text => PStr text
               | None => PNone
               end).
Proof.
  intros Hc Hr Hch. rewrite search_drug_run, Hc. cbv zeta. rewrite Hr, Hch.
  eexists. split; [reflexivity|]. split; reflexivity.
Qed.

(** X7.  The timestamp of the envelope is the reading of the clock taken
    before the prompt is built, and the processing time is the second
    reading minus the first; it is negative exactly when the clock was set
    back between the two. *)
Theorem search_envelope_timing w request l r l' :
  search_drug request w l = (Ok r, l') ->
  let started := clock w (clock_reads l) in
  let finished := clock w (S (clock_reads l)) in
  data_field "timestamp" r = Some (PStr (isoformat w started))
  /\ processing_time r = Some (finished - started)%Z
  /\ ((exists t, processing_time r = Some t /\ (t < 0)%Z) <-> (finished < started)%Z).
Proof.
  intros H. apply search_drug_returns in H as (text & -> & _). cbv zeta.
  split; [reflexivity|]. split; [reflexivity|].
  unfold search_envelope. cbn [processing_time]. split.
  - intros (t & [= <-] & Ht). lia.
  - intros Hlt. eexists. split; [reflexivity|]. lia.
Qed.

(** X8.  When the provider returns an answer that has no choice, the search
    fails like an upstream error: the handler raises the 500 condition with
    the text of the index error, the route answers 500, and the one provider
    call has been made. *)
Theorem search_drug_without_choices w request l client response :
  openai_client w = Some client ->
  completions_create w client (provider_call_count l)
    (search_kwargs (prompt_of request)) = Ok response ->
  OpenAI.choices response = [] ->
  search_drug request w l
  = (Raise (HTTPException 500
        "Failed to search for drug information: list index out of range"),
     search_log w request l)
  /\ status_code (respond JSONModel (search_drug request) w l).1 = 500%nat
  /\ provider_calls (search_drug request w l).2
     = (provider_calls l ++ [search_kwargs (prompt_of request)])%list.
Proof.
  intros Hc Hr Hch.
  assert (H : search_drug request w l
    = (Raise (HTTPException 500
         "Failed to search for drug information: list index out of range"),
       search_log w request l)).
  { rewrite search_drug_run, Hc. cbv zeta. now rewrite Hr, Hch. }
  split; [exact H|]. split.
  - unfold respond. now rewrite H.
  - rewrite H. apply provider_calls_search_log.
Qed.

(** X9.  With a configured client a search does four things and no other,
    in this order, whatever the provider answers: it reads the clock, builds
    the prompt, calls the provider with that prompt, and reads the clock
    again. *)
Theorem search_drug_effects w request l client :
  openai_client w = Some client ->
  (search_drug request w l).2
  = (l ++ [ EvNow (clock w (clock_reads l));
            EvPrompt (drug_name request) (include_dosage request)
              (include_side_effects request) (include_interactions request);
            EvCreate (search_kwargs
              (create_drug_search_prompt (drug_name request) (include_dosage request)
                 (include_side_effects request) (include_interactions request)));
            EvNow (clock w (S (clock_reads l))) ])%list.
Proof. intros Hc. now rewrite (search_drug_log _ _ _ _ Hc). Qed.

(** X10.  The status of a search route is decided as follows: 422 when the
    inputs are refused; else 503 when no client is configured; else 200 when
    the provider returns an answer with a choice; else 500.  The log is left
    as found in the first two cases. *)
Theorem search_route_status c w l :
  is_search c = true ->
  status_code (app c w l).1
  = match requested c with
    | None => 422%nat
    | Some request =>
        match openai_client w with
        | None => 503%nat
        | Some client =>
            match completions_create w client (provider_call_count l)
                    (search_kwargs (prompt_of request)) with
            | Ok response =>
                match OpenAI.choices response with
                | [] => 500%nat
                | _ :: _ => 200%nat
                end
            | Raise _ => 500%nat
            end
        end
    end
  /\ ((requested c = None \/ openai_client w = None) -> (app c w l).2 = l).
Proof.
  intros Hs. rewrite (app_search_run _ _ _ Hs).
  destruct (requested c) as [request|]; [|split; reflexivity].
  rewrite respond_search_run.
  destruct (openai_client w) as [client|]; [|split; reflexivity].
  split.
  - destruct (completions_create w client _ _) as [response|e]; [|reflexivity].
    now destruct (OpenAI.choices response).
  - intros [H|H]; discriminate H.
Qed.

End GatewayMore.

(** ** The application as a whole *)

Section AppFacts.

Implicit Types (w : World) (l : list Event) (c : Call).

(** X11.  An envelope is only ever sent with status 200, by a search route
    or by [/info], and every envelope sent says [success] with an empty
    error field: a failure is told by the status of the response and never
    by the envelope. *)
Theorem envelopes_only_tell_success c w l e :
  envelope (app c w l).1 = Some e ->
  status_code (app c w l).1 = 200%nat
  /\ success e = true
  /\ error e = None
  /\ (is_search c = true \/ c = GetInfo).
Proof.
  destruct c as [| |b|q|].
  - simpl. discriminate.
  - simpl. unfold get_health, respond. rewrite health_check_run. cbv zeta.
    destruct (openai_client w) as [client|]; [|discriminate].
    now destruct (completions_create w client _ _).
  - rewrite (app_search_run (PostSearchDrug b)) by reflexivity.
    destruct (requested (PostSearchDrug b)) as [request|]; [|discriminate].
    rewrite respond_search_run.
    destruct (openai_client w) as [client|]; [|discriminate].
    destruct (completions_create w client _ _) as [response|err]; [|discriminate].
    destruct (OpenAI.choices response) as [|choice rest]; [discriminate|].
    intros [= <-]. repeat split; auto.
  - rewrite (app_search_run (GetSearchQuick q)) by reflexivity.
    destruct (requested (GetSearchQuick q)) as [request|]; [|discriminate].
    rewrite respond_search_run.
    destruct (openai_client w) as [client|]; [|discriminate].
    destruct (completions_create w client _ _) as [response|err]; [|discriminate].
    destruct (OpenAI.choices response) as [|choice rest]; [discriminate|].
    intros [= <-]. repeat split; auto.
  - intros [= <-]. repeat split; auto.
Qed.

(** X12.  No route lets an exception escape to the framework: whatever the
    inputs, the configuration and the provider do, the answer is never the
    plain-text 500 that the framework gives for an unhandled exception.  In
    particular the request that the quick handler builds is never
    refused. *)
Theorem no_unhandled_exception c w l :
  is_unhandled (app c w l).1 = false.
Proof.
  destruct c as [| |b|q|].
  - reflexivity.
  - simpl. unfold get_health, respond. rewrite health_check_run. cbv zeta.
    destruct (openai_client w) as [client|]; [|reflexivity].
    now destruct (completions_create w client _ _).
  - rewrite (app_search_run (PostSearchDrug b)) by reflexivity.
    destruct (requested (PostSearchDrug b)) as [request|]; [|reflexivity].
    rewrite respond_search_run.
    destruct (openai_client w) as [client|]; [|reflexivity].
    destruct (completions_create w client _ _) as [response|err]; [|reflexivity].
    now destruct (OpenAI.choices response).
  - rewrite (app_search_run (GetSearchQuick q)) by reflexivity.
    destruct (requested (GetSearchQuick q)) as [request|]; [|reflexivity].
    rewrite respond_search_run.
    destruct (openai_client w) as [client|]; [|reflexivity].
    destruct (completions_create w client _ _) as [response|err]; [|reflexivity].
    now destruct (OpenAI.choices response).
  - reflexivity.
Qed.

(** X13.  The health probe reads the clock once and never builds a prompt.
    Without a client it does not call the provider; with one it calls it
    exactly once, before it reads the clock, for the model [gpt-4o] with at
    most 10 output tokens, and it does so whether the call returns or
    raises. *)
Theorem health_check_effects w l :
  (health_check w l).2
  = (l ++ match openai_client w with
          | None => [ EvNow (clock w (clock_reads l)) ]
          | Some _ => [ EvCreate health_kwargs; EvNow (clock w (clock_reads l)) ]
          end)%list
  /\ health_kwargs !! "model" = Some (PStr "gpt-4o")
  /\ health_kwargs !! "max_tokens" = Some (PInt 10)
  /\ dom health_kwargs = ({[ "model"; "messages"; "max_tokens" ]} : gset string).
Proof.
  split; [|repeat split; reflexivity].
  rewrite health_check_run. cbv zeta.
  destruct (openai_client w) as [client|]; [|reflexivity].
  now destruct (completions_create w client _ _).
Qed.

(** X14.  The probe does not vouch for the search.  It asks for the model
    [gpt-4o] while the search asks for [gpt-4o-search-preview]: with a
    provider that serves every call for the former and refuses every call
    for the latter, the probe says [healthy] and every valid search is
    answered 500. *)
Theorem healthy_probe_failing_search w l client :
  openai_client w = Some client ->
  (forall k kwargs, kwargs !! "model" = Some (PStr "gpt-4o") ->
     exists response, completions_create w client k kwargs = Ok response) ->
  (forall k kwargs, kwargs !! "model" = Some (PStr "gpt-4o-search-preview") ->
     exists e, completions_create w client k kwargs = Raise e) ->
  (exists d, (health_check w l).1 = Ok d /\ d !! "status" = Some "healthy")
  /\ forall c l', is_search c = true -> requested c <> None ->
       status_code (app c w l').1 = 500%nat.
Proof.
  intros Hc Hprobe Hsearch. split.
  - rewrite health_check_run, Hc. cbv zeta.
    destruct (Hprobe (provider_call_count l) health_kwargs eq_refl) as [response ->].
    eexists. split; reflexivity.
  - intros c l' Hs Hreq.
    rewrite (app_search_run _ _ _ Hs).
    destruct (requested c) as [request|]; [|contradiction].
    rewrite respond_search_run, Hc.
    destruct (Hsearch (provider_call_count l') (search_kwargs (prompt_of request))
                eq_refl) as [e ->].
    reflexivity.
Qed.

End AppFacts.

(** ** Configuration *)

Section Configuration.

Implicit Types (w : World) (l : list Event).

Lemma unconfigured_service w l :
  openai_client w = None ->
  (exists d l',
     health_check w l = (Ok d, l')
     /\ d !! "status" = Some "warning"
     /\ d !! "message" = Some "OpenAI API key not configured")
  /\ forall request l',
       (search_drug request w l').1 = Raise service_unavailable.
Proof.
  intros Hc. split.
  - rewrite health_check_run, Hc. cbv zeta. do 2 eexists.
    split; [reflexivity|]. split; reflexivity.
  - intros request l'. now rewrite search_drug_run, Hc.
Qed.

(** X15.  A credential that is set but empty, and a credential whose client
    the constructor fails to build, both leave the service as if no
    credential were set: the probe says [warning] with the message that the
    key is not configured, and every search raises the 503 condition. *)
Theorem unusable_credential w l (key : string) :
  environ w !! "OPENAI_API_KEY" = Some key ->
  key = EmptyString \/ (exists e, OpenAI_init w key = Raise e) ->
  (exists d l',
     health_check w l = (Ok d, l')
     /\ d !! "status" = Some "warning"
     /\ d !! "message" = Some "OpenAI API key not configured")
  /\ forall request l',
       (search_drug request w l').1 = Raise service_unavailable.
Proof.
  intros Hkey Hbad. apply unconfigured_service.
  unfold openai_client. rewrite Hkey.
  destruct Hbad as [-> | [e He]]; [reflexivity|].
  rewrite He. now destruct (truthy key).
Qed.

End Configuration.

(** ** The start script *)

Section LauncherFacts.

Import Launcher.

Implicit Types (sh : Shell) (l : list Action).

Ltac log_eq :=
  repeat (rewrite <- ?List.app_assoc; cbn [app map]); reflexivity.

Lemma check_openai_key_run sh l :
  check_openai_key sh l
  = (Returns (key_set sh),
     (l ++ GotEnv "OPENAI_API_KEY"
        :: map Printed
             (if key_set sh
              then [ " OpenAI API key configured" ]
              else [ "  OpenAI API key not found!";
                     "Please set your OpenAI API key:";
                     "  Windows: set OPENAI_API_KEY=your_key_here";
                     "  Linux/Mac: export OPENAI_API_KEY=your_key_here";
                     "  Or create a .env file with: OPENAI_API_KEY=your_key_here" ]))%list).
Proof.
  unfold check_openai_key, key_set, mbind, P_bind, getenv, print, mret, P_ret.
  destruct (from_option truthy false (os_environ sh !! "OPENAI_API_KEY"));
    cbn; rewrite <- ?(assoc_L (++)); reflexivity.
Qed.

Lemma check_requirements_run sh l :
  check_requirements sh l
  = let l' := (l ++ map Imported (attempted sh required_packages))%list in
    match first_failure sh required_packages with
    | None =>
        (Returns true, (l' ++ [ Printed " All required packages are installed" ])%list)
    | Some (_, e) =>
        if is_ImportError e then
          (Returns false,
           (l' ++ [ Printed (" Missing required package: " +:+ exc_text e);
                    Printed "Please install requirements: pip install -r requirements.txt" ])%list)
        else (Raises e, l')
    end.
Proof.
  unfold check_requirements, try_clauses, mbind, P_bind, import_, print, mret, P_ret.
  cbn [first_failure attempted required_packages].
  destruct (import_module sh "fastapi") as [e|];
    [destruct (is_ImportError e) eqn:E; cbn; rewrite ?E; cbn;
       rewrite <- ?(assoc_L (++)); reflexivity|].
  destruct (import_module sh "uvicorn") as [e|];
    [destruct (is_ImportError e) eqn:E; cbn; rewrite ?E; cbn;
       rewrite <- ?(assoc_L (++)); reflexivity|].
  destruct (import_module sh "openai") as [e|];
    [destruct (is_ImportError e) eqn:E; cbn; rewrite ?E; cbn;
       rewrite <- ?(assoc_L (++)); reflexivity|].
  destruct (import_module sh "pydantic") as [e|];
    [destruct (is_ImportError e) eqn:E; cbn; rewrite ?E; cbn;
       rewrite <- ?(assoc_L (++)); reflexivity|].
  cbn. rewrite <- ?(assoc_L (++)). reflexivity.
Qed.

Lemma start_api_run sh l :
  start_api sh l
  = ((after_child sh).1,
     (l ++ map Printed banner ++ Ran (server_command sh)
        :: map Printed (after_child sh).2)%list).
Proof.
  unfold start_api, after_child, try_clauses, mbind, P_bind, print, shell,
    subprocess_run, server_command, banner.
  cbn [select_clause map app].
  destruct (run_child sh _) as [e|]; cbn.
  - destruct (is_KeyboardInterrupt e) eqn:Ek; cbn.
    + rewrite <- !(assoc_L (++)). reflexivity.
    + destruct (is_Exception e) eqn:Ee; cbn;
        rewrite <- !(assoc_L (++)); reflexivity.
  - rewrite <- !(assoc_L (++)). reflexivity.
Qed.

Lemma main_run sh l :
  main sh l
  = let l1 := (l ++ [ Printed " PharmacyGenius Search API"; Printed (str_mul "=" 60) ]
                 ++ map Imported (attempted sh required_packages))%list in
    match first_failure sh required_packages with
    | Some (_, e) =>
        if is_ImportError e then
          (Raises (SystemExit 1),
           (l1 ++ [ Printed (" Missing required package: " +:+ exc_text e);
                    Printed "Please install requirements: pip install -r requirements.txt" ])%list)
        else (Raises e, l1)
    | None =>
        let l2 := (l1 ++ [ Printed " All required packages are installed";
                           GotEnv "OPENAI_API_KEY" ])%list in
        if key_set sh then
          start_api sh (l2 ++ [ Printed " OpenAI API key configured" ])%list
        else
          let l3 :=
            (l2 ++ map Printed
                     [ "  OpenAI API key not found!";
                       "Please set your OpenAI API key:";
                       "  Windows: set OPENAI_API_KEY=your_key_here";
                       "  Linux/Mac: export OPENAI_API_KEY=your_key_here";
                       "  Or create a .env file with: OPENAI_API_KEY=your_key_here";
                       newline
                       +:+ "  API will start but OpenAI features won't work without the API key";
                       "You can still test the health and info endpoints" ]
                ++ [ Asked continue_prompt ])%list in
          match stdin sh continue_prompt with
          | Returns response =>
              if String.eqb (lower response) "y" then start_api sh l3
              else (Raises (SystemExit 1), l3)
          | Raises e => (Raises e, l3)
          end
    end.
Proof.
  unfold main, mbind, P_bind. unfold print at 1 2.
  rewrite check_requirements_run. cbv zeta.
  destruct (first_failure sh required_packages) as [[name e]|].
  - destruct (is_ImportError e); cbn; f_equal; log_eq.
  - cbn [negb]. unfold mret at 1, P_ret. cbv iota beta.
    rewrite check_openai_key_run.
    destruct (key_set sh); cbn [negb]; cbv iota beta.
    + unfold mret, P_ret. apply (f_equal (start_api sh)). log_eq.
    + unfold print, input, sys_exit, mret, P_ret. unfold continue_prompt. cbn.
      destruct (stdin sh _) as [response|e]; cbn.
      * destruct (String.eqb (lower response) "y"); cbn.
        -- apply (f_equal (start_api sh)). log_eq.
        -- f_equal. log_eq.
      * f_equal. log_eq.
Qed.

Lemma first_failure_split sh (done : list string) (name : string)
    (rest : list string) (e : exc) :
  (forall n, n ∈ done -> import_module sh n = None) ->
  import_module sh name = Some e ->
  first_failure sh (done ++ name :: rest) = Some (name, e)
  /\ attempted sh (done ++ name :: rest) = (done ++ [name])%list.
Proof.
  intros Hdone Hname. induction done as [|n done IH]; simpl.
  - now rewrite Hname.
  - rewrite (Hdone n) by apply list_elem_of_here.
    destruct IH as [-> ->]; [|now split].
    intros n' Hn'. apply Hdone. now apply list_elem_of_further.
Qed.

Lemma first_failure_none sh (packages : list string) :
  first_failure sh packages = None
  <-> forall n, n ∈ packages -> import_module sh n = None.
Proof.
  induction packages as [|n packages IH]; simpl.
  - split; [|reflexivity]. intros _ n Hn. inversion Hn.
  - destruct (import_module sh n) as [e|] eqn:E.
    + split; [discriminate|]. intros H.
      rewrite (H n) in E by apply list_elem_of_here. discriminate E.
    + rewrite IH. split.
      * intros H n' Hn'. apply elem_of_cons in Hn' as [->|Hn']; auto.
      * intros H n' Hn'. apply H. now apply list_elem_of_further.
Qed.

Lemma omap_map_none {A B C : Type} (f : B -> option C) (g : A -> B) (xs : list A) :
  (forall x, f (g x) = None) -> omap f (map g xs) = [].
Proof.
  intros H. induction xs as [|x xs IH]; [reflexivity|].
  cbn. now rewrite H.
Qed.

Lemma omap_map_some {A B : Type} (f : B -> option A) (g : A -> B) (xs : list A) :
  (forall x, f (g x) = Some x) -> omap f (map g xs) = xs.
Proof.
  intros H. induction xs as [|x xs IH]; [reflexivity|].
  cbn. now rewrite H, IH.
Qed.

(** Reading one kind of action off a log that is written out. *)
Ltac read_log :=
  unfold ran, asked, env_reads, imported, printed;
  repeat first
    [ rewrite omap_app
    | rewrite (omap_map_none _ Printed) by reflexivity
    | rewrite (omap_map_none _ Imported) by reflexivity
    | rewrite (omap_map_some _ Printed) by reflexivity
    | rewrite (omap_map_some _ Imported) by reflexivity
    | progress cbn [omap list_omap map] ];
  rewrite ?app_nil_r.

(** X16.  [check_requirements] imports the four packages in the order
    fastapi, uvicorn, openai, pydantic and returns [True] exactly when all
    four import.  At the first package whose import raises it stops: the
    packages after it are not imported, and it returns [False] when the
    error is an [ImportError] and lets any other exception through. *)
Theorem check_requirements_stops_at_first_failure sh l :
  ((check_requirements sh l).1 = Returns true
   <-> forall name, name ∈ required_packages -> import_module sh name = None)
  /\ forall (done : list string) (name : string) (rest : list string) (e : exc),
       required_packages = (done ++ name :: rest)%list ->
       (forall n, n ∈ done -> import_module sh n = None) ->
       import_module sh name = Some e ->
       imported (check_requirements sh l).2 = (imported l ++ done ++ [name])%list
       /\ (check_requirements sh l).1
          = if is_ImportError e then Returns false else Raises e.
Proof.
  rewrite check_requirements_run. cbv zeta. split.
  - rewrite <- first_failure_none.
    destruct (first_failure sh required_packages) as [[name e]|]; [|tauto].
    split; [|discriminate]. now destruct (is_ImportError e).
  - intros done name rest e Hsplit Hdone Hname.
    destruct (first_failure_split sh done name rest e Hdone Hname) as [Hf Ha].
    rewrite Hsplit, Hf, Ha.
    destruct (is_ImportError e); cbn [fst snd]; read_log; now split.
Qed.

(** X17.  [start_api] runs the server once, with the command line
    [python -m uvicorn main:app --host 0.0.0.0 --port 8000 --reload], and
    returns normally when the child returns, when it is interrupted from the
    keyboard, and when starting it raises an [Exception], whose text it
    prints. *)
Theorem start_api_contains_failures sh l :
  ran (start_api sh l).2
  = (ran l ++ [ [ sys_executable sh; "-m"; "uvicorn"; "main:app";
                  "--host"; "0.0.0.0"; "--port"; "8000"; "--reload" ] ])%list
  /\ (run_child sh (server_command sh) = None -> (start_api sh l).1 = Returns tt)
  /\ forall e, run_child sh (server_command sh) = Some e ->
       (is_KeyboardInterrupt e = true -> (start_api sh l).1 = Returns tt)
       /\ (is_Exception e = true ->
           (start_api sh l).1 = Returns tt
           /\ printed (start_api sh l).2
              = (printed l ++ banner ++ [ " Error starting API: " +:+ exc_text e ])%list).
Proof.
  rewrite start_api_run. cbn [fst snd]. split; [|split].
  - read_log. reflexivity.
  - unfold after_child. now intros ->.
  - intros e He. unfold after_child. rewrite He. split.
    + now intros ->.
    + intros Hex. destruct e; try discriminate Hex; cbn [is_KeyboardInterrupt fst snd];
        rewrite ?Hex; (split; [reflexivity|]); read_log; reflexivity.
Qed.

(** X18.  [main] starts the server exactly when the four packages import
    and either the credential is set and not empty or the user answers the
    prompt with [y] or [Y]; it never starts it more than once. *)
Theorem main_starts_server_iff sh l :
  ran (main sh l).2
  = (ran l ++ if will_start sh then [ server_command sh ] else [])%list.
Proof.
  rewrite main_run. unfold will_start, answers_yes. cbv zeta.
  destruct (first_failure sh required_packages) as [[name e]|].
  - destruct (is_ImportError e); cbn [snd]; read_log; reflexivity.
  - destruct (key_set sh); cbn [orb].
    + rewrite start_api_run. cbn [snd]. read_log. reflexivity.
    + destruct (stdin sh continue_prompt) as [response|e].
      * destruct (String.eqb (lower response) "y").
        -- rewrite start_api_run. cbn [snd]. read_log. reflexivity.
        -- cbn [snd]. read_log. reflexivity.
      * cbn [snd]. read_log. reflexivity.
Qed.

Lemma lower_char_is_y (c : Ascii.ascii) :
  lower_char c = Ascii.ascii_of_nat 121
  <-> c = Ascii.ascii_of_nat 121 \/ c = Ascii.ascii_of_nat 89.
Proof.
  destruct c as [[] [] [] [] [] [] [] []]; vm_compute; split;
    solve [ intros H; discriminate H
          | intros [H|H]; discriminate H
          | intros _; auto
          | auto ].
Qed.

Lemma lower_is_y (response : string) :
  String.eqb (lower response) "y" = true <-> response = "y" \/ response = "Y".
Proof.
  rewrite String.eqb_eq.
  destruct response as [|c [|c' rest]].
  - split; [discriminate | intros [H|H]; discriminate H].
  - cbn [lower]. split.
    + intros [= H]. apply lower_char_is_y in H as [-> | ->]; auto.
    + intros [[= ->] | [= ->]]; reflexivity.
  - split; [discriminate | intros [H|H]; discriminate H].
Qed.

(** X19.  [main] reads the credential only when the four packages import,
    and asks whether to continue only when moreover the credential is
    missing or empty; it asks once at most.  The answer counts as yes when
    it is exactly [y] or [Y]: an empty answer, [yes], or an answer with a
    space around it do not. *)
Theorem main_asks_only_without_key sh l :
  env_reads (main sh l).2
  = (env_reads l ++ match first_failure sh required_packages with
                    | None => [ "OPENAI_API_KEY" ]
                    | Some _ => []
                    end)%list
  /\ asked (main sh l).2
     = (asked l ++ match first_failure sh required_packages with
                   | None => if key_set sh then [] else [ continue_prompt ]
                   | Some _ => []
                   end)%list
  /\ forall response,
       stdin sh continue_prompt = Returns response ->
       (answers_yes sh = true <-> response = "y" \/ response = "Y").
Proof.
  split; [|split].
  - rewrite main_run. cbv zeta.
    destruct (first_failure sh required_packages) as [[name e]|].
    + destruct (is_ImportError e); cbn [snd]; read_log; reflexivity.
    + destruct (key_set sh).
      * rewrite start_api_run. cbn [snd]. read_log. reflexivity.
      * destruct (stdin sh continue_prompt) as [response|e].
        -- destruct (String.eqb (lower response) "y").
           ++ rewrite start_api_run. cbn [snd]. read_log. reflexivity.
           ++ cbn [snd]. read_log. reflexivity.
        -- cbn [snd]. read_log. reflexivity.
  - rewrite main_run. cbv zeta.
    destruct (first_failure sh required_packages) as [[name e]|].
    + destruct (is_ImportError e); cbn [snd]; read_log; reflexivity.
    + destruct (key_set sh).
      * rewrite start_api_run. cbn [snd]. read_log. reflexivity.
      * destruct (stdin sh continue_prompt) as [response|e].
        -- destruct (String.eqb (lower response) "y").
           ++ rewrite start_api_run. cbn [snd]. read_log. reflexivity.
           ++ cbn [snd]. read_log. reflexivity.
        -- cbn [snd]. read_log. reflexivity.
  - intros response Hr. unfold answers_yes. rewrite Hr. apply lower_is_y.
Qed.

(** X20.  How [main] ends.  It exits with status 1 when a required package
    fails to import with an [ImportError], and when the credential is
    missing and the user does not answer yes.  When it gets to the server it
    ends as [start_api] does: normally, unless the child raises something
    that is neither a keyboard interrupt nor an [Exception]. *)
Theorem main_outcome sh l :
  (main sh l).1
  = match first_failure sh required_packages with
    | Some (_, e) => if is_ImportError e then Raises (SystemExit 1) else Raises e
    | None =>
        if key_set sh then (after_child sh).1
        else
          match stdin sh continue_prompt with
          | Returns response =>
              if String.eqb (lower response) "y" then (after_child sh).1
              else Raises (SystemExit 1)
          | Raises e => Raises e
          end
    end.
Proof.
  rewrite main_run. cbv zeta.
  destruct (first_failure sh required_packages) as [[name e]|].
  - now destruct (is_ImportError e).
  - destruct (key_set sh).
    + now rewrite start_api_run.
    + destruct (stdin sh continue_prompt) as [response|e]; [|reflexivity].
      destruct (String.eqb (lower response) "y"); [|reflexivity].
      now rewrite start_api_run.
Qed.

(** X21.  The check of the start script and the service do not read the
    credential from the same place: the script looks at the process
    environment, the service at that environment completed by the [.env]
    file.  When the check of the script passes, the service has its
    credential.  When the credential is only in the [.env] file, the check
    of the script fails, so that [main] asks whether to continue, although
    the service has its credential. *)
Theorem script_check_and_service_credential sh l
    (dotenv_file : gmap string string) (w : World) :
  environ w = Dotenv.load_dotenv dotenv_file (os_environ sh) ->
  ((check_openai_key sh l).1 = Returns true -> credential_configured w = true)
  /\ (os_environ sh !! "OPENAI_API_KEY" = None ->
      (exists key, dotenv_file !! "OPENAI_API_KEY" = Some key /\ key <> EmptyString) ->
      (check_openai_key sh l).1 = Returns false
      /\ credential_configured w = true).
Proof.
  intros Henv. rewrite check_openai_key_run. cbn [fst].
  unfold key_set, credential_configured, Dotenv.load_dotenv in *. rewrite Henv.
  split.
  - intros [= Hset].
    destruct (os_environ sh !! "OPENAI_API_KEY") as [key|] eqn:E; [|discriminate].
    erewrite lookup_union_Some_l by exact E. exact Hset.
  - intros Hnone (key & Hkey & Hne). rewrite Hnone. split; [reflexivity|].
    rewrite lookup_union_r by exact Hnone. rewrite Hkey.
    destruct key; [contradiction|reflexivity].
Qed.

End LauncherFacts.

(** ** The further statements at sample inputs *)

Section MoreInstances.

Lemma create_drug_search_prompt_injective_witness :
  create_drug_search_prompt "aspirin" true true false
  = create_drug_search_prompt "aspirin" true true false
  /\ ("aspirin" = "aspirin" /\ true = true /\ true = true /\ false = false).
Proof.
  split; [reflexivity|].
  exact (create_drug_search_prompt_injective "aspirin" true true false
           "aspirin" true true false eq_refl).
Defined.

Lemma create_drug_search_prompt_length_witness :
  (String.length "aspirin" <= 100)%nat
  /\ (String.length (create_drug_search_prompt "aspirin" true true false) <= 1852)%nat.
Proof.
  assert (H : (String.length "aspirin" <= 100)%nat) by (simpl; lia).
  split; [exact H|].
  exact (proj2 (create_drug_search_prompt_length "aspirin" true true false) H).
Defined.

Lemma preview_shows_drug_name_witness :
  ((String.length "aspirin" <= 141)%nat
   /\ slice_to 200 (create_drug_search_prompt "aspirin" true true false)
      = preamble_head +:+ dquote +:+ "aspirin" +:+ dquote
        +:+ slice_to (141 - String.length "aspirin") preamble_tail)
  /\ ((142 <= String.length name_150)%nat
      /\ slice_to 200 (create_drug_search_prompt name_150 true true false)
         = preamble_head +:+ dquote +:+ slice_to 142 name_150).
Proof.
  assert (H1 : (String.length "aspirin" <= 141)%nat) by (simpl; lia).
  assert (H2 : (142 <= String.length name_150)%nat) by (vm_compute; lia).
  split; (split; [assumption|]).
  - exact (proj1 (preview_shows_drug_name "aspirin" true true false) H1).
  - exact (proj2 (preview_shows_drug_name name_150 true true false) H2).
Defined.

Lemma search_drug_returns_iff_witness :
  exists r l', search_drug aspirin_request world_answering [] = (Ok r, l').
Proof.
  apply (proj2 (search_drug_returns_iff world_answering aspirin_request [])).
  exists sample_client, (answer "Aspirin is a salicylate."). do 2 eexists.
  split; [reflexivity|]. split; reflexivity.
Defined.

Lemma sample_search_returns :
  search_drug aspirin_request world_answering []
  = (Ok (search_envelope world_answering aspirin_request
           (Some "Aspirin is a salicylate.") 1000%Z 1250%Z),
     search_log world_answering aspirin_request []).
Proof. rewrite search_drug_run. reflexivity. Qed.

Lemma search_envelope_echoes_request_witness :
  data_field "drug_name"
    (search_envelope world_answering aspirin_request
       (Some "Aspirin is a salicylate.") 1000%Z 1250%Z)
  = Some (PStr "aspirin").
Proof.
  exact (proj1 (search_envelope_echoes_request world_answering aspirin_request []
                  _ _ sample_search_returns)).
Defined.

Lemma drug_information_is_first_choice_witness :
  exists r,
    (search_drug aspirin_request world_clock_set_back []).1 = Ok r
    /\ success r = true
    /\ data_field "drug_information" r = Some PNone.
Proof.
  exact (drug_information_is_first_choice world_clock_set_back aspirin_request []
           sample_client _ _ _ eq_refl eq_refl eq_refl).
Defined.

Lemma sample_search_with_clock_set_back :
  search_drug aspirin_request world_clock_set_back []
  = (Ok (search_envelope world_clock_set_back aspirin_request None 1000%Z 750%Z),
     search_log world_clock_set_back aspirin_request []).
Proof. rewrite search_drug_run. reflexivity. Qed.

Lemma search_envelope_timing_witness :
  processing_time
    (search_envelope world_clock_set_back aspirin_request None 1000%Z 750%Z)
  = Some (-250)%Z.
Proof.
  exact (proj1 (proj2 (search_envelope_timing world_clock_set_back aspirin_request []
                         _ _ sample_search_with_clock_set_back))).
Defined.

Lemma search_drug_without_choices_witness :
  status_code (respond JSONModel (search_drug aspirin_request) world_no_choices []).1
  = 500%nat.
Proof.
  exact (proj1 (proj2 (search_drug_without_choices world_no_choices aspirin_request []
                         sample_client _ eq_refl eq_refl eq_refl))).
Defined.

Lemma search_drug_effects_witness :
  (search_drug aspirin_request world_failing []).2
  = [ EvNow 1000%Z;
      EvPrompt "aspirin" true true false;
      EvCreate (search_kwargs (create_drug_search_prompt "aspirin" true true false));
      EvNow 1250%Z ].
Proof.
  exact (search_drug_effects world_failing aspirin_request [] sample_client eq_refl).
Defined.

Lemma search_route_status_witness :
  status_code (app (GetSearchQuick (Some "aspirin")) world_unconfigured []).1 = 503%nat
  /\ (app (GetSearchQuick (Some "aspirin")) world_unconfigured []).2 = [].
Proof.
  pose proof (search_route_status (GetSearchQuick (Some "aspirin")) world_unconfigured
                [] eq_refl) as [H1 H2].
  split; [exact H1 | exact (H2 (or_intror eq_refl))].
Defined.

Lemma sample_post_returns :
  envelope (app (PostSearchDrug aspirin_body) world_answering []).1
  = Some (search_envelope world_answering aspirin_request
            (Some "Aspirin is a salicylate.") 1000%Z 1250%Z).
Proof. vm_compute. reflexivity. Qed.

Lemma envelopes_only_tell_success_witness :
  status_code (app (PostSearchDrug aspirin_body) world_answering []).1 = 200%nat.
Proof.
  exact (proj1 (envelopes_only_tell_success (PostSearchDrug aspirin_body)
                  world_answering [] _ sample_post_returns)).
Defined.

Lemma healthy_probe_failing_search_witness :
  (exists d, (health_check world_probe_only []).1 = Ok d
             /\ d !! "status" = Some "healthy")
  /\ status_code (app (PostSearchDrug aspirin_body) world_probe_only []).1 = 500%nat.
Proof.
  assert (Hprobe : forall (k : nat) (kwargs : gmap string pyval),
            kwargs !! "model" = Some (PStr "gpt-4o") ->
            exists response,
              completions_create world_probe_only sample_client k kwargs = Ok response).
  { intros k kwargs H. cbn. rewrite H. eauto. }
  assert (Hsearch : forall (k : nat) (kwargs : gmap string pyval),
            kwargs !! "model" = Some (PStr "gpt-4o-search-preview") ->
            exists e,
              completions_create world_probe_only sample_client k kwargs = Raise e).
  { intros k kwargs H. cbn. rewrite H. eauto. }
  destruct (healthy_probe_failing_search world_probe_only [] sample_client eq_refl
              Hprobe Hsearch) as [H1 H2].
  split; [exact H1|].
  apply H2; [reflexivity | discriminate].
Defined.

Lemma unusable_credential_witness :
  environ world_broken_constructor !! "OPENAI_API_KEY" = Some "sk-sample"
  /\ forall request l',
       (search_drug request world_broken_constructor l').1 = Raise service_unavailable.
Proof.
  split; [reflexivity|].
  refine (proj2 (unusable_credential world_broken_constructor [] "sk-sample" eq_refl _)).
  right. eexists. reflexivity.
Defined.

Lemma check_requirements_stops_at_first_failure_witness :
  Launcher.imported (Launcher.check_requirements shell_missing_package []).2
  = [ "fastapi"; "uvicorn"; "openai" ]
  /\ (Launcher.check_requirements shell_missing_package []).1 = Launcher.Returns false.
Proof.
  refine (proj2 (check_requirements_stops_at_first_failure shell_missing_package [])
            [ "fastapi"; "uvicorn" ] "openai" [ "pydantic" ]
            (Launcher.ImportError "No module named 'openai'") eq_refl _ eq_refl).
  intros n Hn. apply elem_of_cons in Hn as [-> | Hn]; [reflexivity|].
  apply elem_of_cons in Hn as [-> | Hn]; [reflexivity|].
  inversion Hn.
Defined.

Lemma start_api_contains_failures_witness :
  Launcher.run_child shell_no_key_yes (Launcher.server_command shell_no_key_yes)
  = Some Launcher.KeyboardInterrupt
  /\ (Launcher.start_api shell_no_key_yes []).1 = Launcher.Returns tt.
Proof.
  split; [reflexivity|].
  exact (proj1 (proj2 (proj2 (start_api_contains_failures shell_no_key_yes []))
                  Launcher.KeyboardInterrupt eq_refl) eq_refl).
Defined.

Lemma main_asks_only_without_key_witness :
  Launcher.stdin shell_no_key_yes Launcher.continue_prompt = Launcher.Returns "Y"
  /\ Launcher.answers_yes shell_no_key_yes = true.
Proof.
  split; [reflexivity|].
  apply (proj2 (proj2 (main_asks_only_without_key shell_no_key_yes [])) "Y" eq_refl).
  now right.
Defined.

Lemma script_check_and_service_credential_witness :
  environ world_from_dotenv
  = Dotenv.load_dotenv dotenv_with_key (Launcher.os_environ shell_no_key_default)
  /\ (Launcher.check_openai_key shell_no_key_default []).1 = Launcher.Returns false
  /\ credential_configured world_from_dotenv = true.
Proof.
  split; [reflexivity|].
  refine (proj2 (script_check_and_service_credential shell_no_key_default []
                   dotenv_with_key world_from_dotenv eq_refl) eq_refl _).
  exists "sk-from-file". split; [reflexivity | discriminate].
Defined.

End MoreInstances.
